(** * p5.opengl.gloo: an object-oriented interface to OpenGL

    A shallow embedding of [src/p5/opengl/gloo.py].  The module wraps
    driver handles (buffers, 2D textures, framebuffers) in Python
    classes whose methods call into [pyglet.gl].  Every method is
    embedded as a computation over an explicit graphics context: the
    bind slots, the live names, the per-texture sampling parameters and
    the trace of driver commands issued so far.  Python exceptions are
    outcomes of the computation, and the context reached when an
    exception propagates is kept, because a command issued before a
    [raise] stays issued.  Construction, binding, upload, drawing and
    attachment are embedded; the release of names ([delete]) is not. *)

From Stdlib Require Import ZArith Lia.
From stdpp Require Import base gmap strings list pretty.

Local Open Scope Z_scope.

(** ** Python values and exceptions *)

(** The exceptions the module can raise, with their argument. *)
Inductive exn :=
| KeyError (key : string)
| ValueError (msg : string)
| TypeError (msg : string)
| OverflowError (msg : string)
| NameError (name : string)
| AttributeError (cls attr : string)
| Exception (msg : string).

Inductive outcome (A : Type) :=
| Ok (a : A)
| Raise (e : exn).
Arguments Ok {A} a.
Arguments Raise {A} e.

(** The elements of a data sequence handed to a buffer: Python [int]s
    (unbounded) and Python [float]s.  A float is kept as its IEEE-754
    binary64 bit pattern; no arithmetic is done on it. *)
Inductive pynum :=
| PyInt (z : Z)
| PyFloat (bits : Z).

(** ** ctypes *)

Module ct.

(** The two element types of [_dtype_map]. *)
Inductive ctype := c_float | c_uint.

(** A converted array element.  [float32 v] stands for the binary32
    value ctypes stores for the number [v]; its rounding is not
    computed. *)
Inductive cdata :=
| uint32 (n : Z)
| float32 (src : pynum).

(** The conversion ctypes applies to one initialiser.  [c_uint] takes
    an int of any size and keeps its low 32 bits, and refuses a float;
    [c_float] takes a float, or an int that fits in a double. *)
Definition convert (t : ctype) (v : pynum) : outcome cdata :=
  match t, v with
  | c_uint, PyInt z => Ok (uint32 (z mod 2 ^ 32))
  | c_uint, PyFloat _ => Raise (TypeError "int expected instead of float")
  | c_float, PyInt z =>
      if Z.abs z <? 2 ^ 1024 - 2 ^ 970 then Ok (float32 v)
      else Raise (OverflowError "int too large to convert to float")
  | c_float, PyFloat _ => Ok (float32 v)
  end.

Fixpoint convert_all (t : ctype) (value : list pynum) : outcome (list cdata) :=
  match value with
  | [] => Ok []
  | v :: rest =>
      match convert t v with
      | Ok c =>
          match convert_all t rest with
          | Ok cs => Ok (c :: cs)
          | Raise e => Raise e
          end
      | Raise e => Raise e
      end
  end.

Record array := { elem_type : ctype; elems : list cdata }.

(** The array type [t * len(value)] called on the elements of
    [value], which converts them in order. *)
Definition make_array (t : ctype) (value : list pynum) : outcome array :=
  match convert_all t value with
  | Ok cs => Ok {| elem_type := t; elems := cs |}
  | Raise e => Raise e
  end.

(** Both element types are four bytes wide. *)
Definition sizeof (a : array) : Z := 4 * Z.of_nat (length (elems a)).

End ct.

(** ** The graphics context *)

(** A driver command, with the arguments it was issued with.  For a
    [Gen*] command the second argument is the name the driver wrote
    through the pointer. *)
Inductive call :=
| GenBuffers (n name : Z)
| BindBuffer (target buffer : Z)
| BufferData (target size : Z) (data : ct.array) (usage : Z)
| DrawElements (mode count type indices : Z)
| GenTextures (n name : Z)
| BindTexture (target texture : Z)
| TexImage2D (target level internalformat width height border format type : Z)
             (pixels : list Z)
| TexParameteri (target pname param : Z)
| GenFramebuffersEXT (n name : Z)
| CheckFramebufferStatusEXT (target : Z)
| BindFramebufferEXT (target framebuffer : Z)
| FramebufferTexture2DEXT (target attachment textarget texture level : Z).

Record context := {
  bound : gmap Z Z;                (* bind slot (target enum) -> name bound *)
  buffers : list Z;                (* live buffer names *)
  textures : list Z;               (* live texture names *)
  framebuffers : list Z;           (* live framebuffer names *)
  buffer_store : gmap Z ct.array;  (* buffer name -> device copy *)
  tex_parameter : gmap (Z * Z) Z;  (* (texture name, pname) -> value *)
  framebuffer_status : Z;          (* the answer of the status query *)
  calls : list call                (* commands issued, oldest first *)
}.

(** The name held by a bind slot; a slot never written holds 0. *)
Definition slot (c : context) (target : Z) : Z := default 0 (bound c !! target).

(** The sampling parameter [pname] of texture [tex], when it was set. *)
Definition sampling (c : context) (tex pname : Z) : option Z :=
  tex_parameter c !! (tex, pname).

Definition set_bound (b : gmap Z Z) (c : context) : context :=
  {| bound := b; buffers := buffers c; textures := textures c;
     framebuffers := framebuffers c; buffer_store := buffer_store c;
     tex_parameter := tex_parameter c;
     framebuffer_status := framebuffer_status c; calls := calls c |}.

Definition set_buffers (l : list Z) (c : context) : context :=
  {| bound := bound c; buffers := l; textures := textures c;
     framebuffers := framebuffers c; buffer_store := buffer_store c;
     tex_parameter := tex_parameter c;
     framebuffer_status := framebuffer_status c; calls := calls c |}.

Definition set_textures (l : list Z) (c : context) : context :=
  {| bound := bound c; buffers := buffers c; textures := l;
     framebuffers := framebuffers c; buffer_store := buffer_store c;
     tex_parameter := tex_parameter c;
     framebuffer_status := framebuffer_status c; calls := calls c |}.

Definition set_framebuffers (l : list Z) (c : context) : context :=
  {| bound := bound c; buffers := buffers c; textures := textures c;
     framebuffers := l; buffer_store := buffer_store c;
     tex_parameter := tex_parameter c;
     framebuffer_status := framebuffer_status c; calls := calls c |}.

Definition set_buffer_store (s : gmap Z ct.array) (c : context) : context :=
  {| bound := bound c; buffers := buffers c; textures := textures c;
     framebuffers := framebuffers c; buffer_store := s;
     tex_parameter := tex_parameter c;
     framebuffer_status := framebuffer_status c; calls := calls c |}.

Definition set_tex_parameter (p : gmap (Z * Z) Z) (c : context) : context :=
  {| bound := bound c; buffers := buffers c; textures := textures c;
     framebuffers := framebuffers c; buffer_store := buffer_store c;
     tex_parameter := p;
     framebuffer_status := framebuffer_status c; calls := calls c |}.

Definition record (e : call) (c : context) : context :=
  {| bound := bound c; buffers := buffers c; textures := textures c;
     framebuffers := framebuffers c; buffer_store := buffer_store c;
     tex_parameter := tex_parameter c;
     framebuffer_status := framebuffer_status c; calls := calls c ++ [e] |}.

(** A context in which nothing was created, bound or issued yet. *)
Definition fresh_context (status : Z) : context :=
  {| bound := ∅; buffers := []; textures := []; framebuffers := [];
     buffer_store := ∅; tex_parameter := ∅;
     framebuffer_status := status; calls := [] |}.

(** A name the driver has not handed out: non-zero and above every
    live name. *)
Definition fresh_name (live : list Z) : Z := 1 + foldr Z.max 0 live.

(** ** Computations over the context *)

Definition M (A : Type) : Type := context -> outcome A * context.

#[export] Instance M_ret : MRet M := fun A a c => (Ok a, c).

#[export] Instance M_bind : MBind M := fun A B f m c =>
  match m c with
  | (Ok a, c') => f a c'
  | (Raise e, c') => (Raise e, c')
  end.

Definition raise {A : Type} (e : exn) : M A := fun c => (Raise e, c).

(** A pure computation that may raise. *)
Definition lift {A : Type} (o : outcome A) : M A := fun c => (o, c).

Definition issue (e : call) : M unit := fun c => (Ok tt, record e c).

(** The commands a computation added to the trace. *)
Definition issued (c c' : context) (new : list call) : Prop :=
  calls c' = calls c ++ new.

(** ** pyglet.gl *)

(** The names of [pyglet.gl] the module uses: the enumerants with the
    values the OpenGL headers give them, the two ctypes element types,
    and the commands.  A command never fails here: it updates the
    context and is added to the trace. *)
Module gl.

Definition GL_POINTS : Z := 0x0000.
Definition GL_LINE_LOOP : Z := 0x0002.
Definition GL_LINE_STRIP : Z := 0x0003.
Definition GL_TRIANGLES : Z := 0x0004.
Definition GL_TRIANGLE_FAN : Z := 0x0006.
Definition GL_TEXTURE_2D : Z := 0x0DE1.
Definition GL_UNSIGNED_BYTE : Z := 0x1401.
Definition GL_UNSIGNED_INT : Z := 0x1405.
Definition GL_FLOAT : Z := 0x1406.
Definition GL_RGB : Z := 0x1907.
Definition GL_LINEAR : Z := 0x2601.
Definition GL_TEXTURE_MAG_FILTER : Z := 0x2800.
Definition GL_TEXTURE_MIN_FILTER : Z := 0x2801.
Definition GL_TEXTURE_WRAP_S : Z := 0x2802.
Definition GL_TEXTURE_WRAP_T : Z := 0x2803.
Definition GL_CLAMP_TO_EDGE : Z := 0x812F.
Definition GL_ARRAY_BUFFER : Z := 0x8892.
Definition GL_ELEMENT_ARRAY_BUFFER : Z := 0x8893.
Definition GL_STATIC_DRAW : Z := 0x88E4.
Definition GL_FRAMEBUFFER_COMPLETE_EXT : Z := 0x8CD5.
Definition GL_COLOR_ATTACHMENT0_EXT : Z := 0x8CE0.
Definition GL_FRAMEBUFFER_EXT : Z := 0x8D40.

Definition GLfloat : ct.ctype := ct.c_float.
Definition GLuint : ct.ctype := ct.c_uint.

(** [glGenBuffers(1, ptr)]: one fresh buffer name, written through
    [ptr]; the computation returns it. *)
Definition glGenBuffers : M Z := fun c =>
  let name := fresh_name (buffers c) in
  (Ok name, record (GenBuffers 1 name) (set_buffers (name :: buffers c) c)).

Definition glBindBuffer (target buffer : Z) : M unit := fun c =>
  (Ok tt, record (BindBuffer target buffer)
            (set_bound (<[target := buffer]> (bound c)) c)).

(** The upload replaces the whole store of the buffer bound to
    [target]. *)
Definition glBufferData (target size : Z) (data : ct.array) (usage : Z) : M unit :=
  fun c =>
  (Ok tt, record (BufferData target size data usage)
            (set_buffer_store (<[slot c target := data]> (buffer_store c)) c)).

Definition glDrawElements (mode count type indices : Z) : M unit :=
  issue (DrawElements mode count type indices).

(** [glGenTextures(1, ptr)] *)
Definition glGenTextures : M Z := fun c =>
  let name := fresh_name (textures c) in
  (Ok name, record (GenTextures 1 name) (set_textures (name :: textures c) c)).

Definition glBindTexture (target texture : Z) : M unit := fun c =>
  (Ok tt, record (BindTexture target texture)
            (set_bound (<[target := texture]> (bound c)) c)).

Definition glTexImage2D
  (target level internalformat width height border format type : Z)
  (pixels : list Z) : M unit :=
  issue (TexImage2D target level internalformat width height border format
           type pixels).

(** The parameter is set on the texture bound to [target]. *)
Definition glTexParameteri (target pname param : Z) : M unit := fun c =>
  (Ok tt, record (TexParameteri target pname param)
            (set_tex_parameter
               (<[(slot c target, pname) := param]> (tex_parameter c)) c)).

(** [glGenFramebuffersEXT(1, ptr)] *)
Definition glGenFramebuffersEXT : M Z := fun c =>
  let name := fresh_name (framebuffers c) in
  (Ok name, record (GenFramebuffersEXT 1 name)
              (set_framebuffers (name :: framebuffers c) c)).

Definition glCheckFramebufferStatusEXT (target : Z) : M Z := fun c =>
  (Ok (framebuffer_status c), record (CheckFramebufferStatusEXT target) c).

Definition glBindFramebufferEXT (target framebuffer : Z) : M unit := fun c =>
  (Ok tt, record (BindFramebufferEXT target framebuffer)
            (set_bound (<[target := framebuffer]> (bound c)) c)).

Definition glFramebufferTexture2DEXT
  (target attachment textarget texture level : Z) : M unit :=
  issue (FramebufferTexture2DEXT target attachment textarget texture level).

End gl.

(** ** Module-level names *)

Local Open Scope string_scope.

(** The names bound at module level, by the two imports, the three
    dictionaries and the five classes. *)
Definition module_globals : list string :=
  [ "__name__"; "__doc__"; "__package__"; "__loader__"; "__spec__";
    "__file__"; "__cached__"; "__builtins__";
    "ABCMeta"; "abstractmethod"; "ct"; "gl";
    "_buffer_type_map"; "_dtype_map"; "_mode_map";
    "GLObject"; "VertexBuffer"; "Texture"; "DummyFrameBuffer"; "FrameBuffer" ].

(** The names of Python's [builtins] module. *)
Definition builtins : list string :=
  [ "abs"; "aiter"; "all"; "anext"; "any"; "ascii"; "bin"; "bool";
    "breakpoint"; "bytearray"; "bytes"; "callable"; "chr"; "classmethod";
    "compile"; "complex"; "copyright"; "credits"; "delattr"; "dict"; "dir";
    "divmod"; "enumerate"; "eval"; "exec"; "exit"; "filter"; "float";
    "format"; "frozenset"; "getattr"; "globals"; "hasattr"; "hash"; "help";
    "hex"; "id"; "input"; "int"; "isinstance"; "issubclass"; "iter"; "len";
    "license"; "list"; "locals"; "map"; "max"; "memoryview"; "min"; "next";
    "object"; "oct"; "open"; "ord"; "pow"; "print"; "property"; "quit";
    "range"; "repr"; "reversed"; "round"; "set"; "setattr"; "slice";
    "sorted"; "staticmethod"; "str"; "sum"; "super"; "tuple"; "type";
    "vars"; "zip"; "__import__"; "__build_class__"; "__debug__";
    "None"; "True"; "False"; "Ellipsis"; "NotImplemented";
    "BaseException"; "Exception"; "ArithmeticError"; "AssertionError";
    "AttributeError"; "BlockingIOError"; "BrokenPipeError"; "BufferError";
    "BytesWarning"; "ChildProcessError"; "ConnectionAbortedError";
    "ConnectionError"; "ConnectionRefusedError"; "ConnectionResetError";
    "DeprecationWarning"; "EOFError"; "EnvironmentError"; "FileExistsError";
    "FileNotFoundError"; "FloatingPointError"; "FutureWarning";
    "GeneratorExit"; "IOError"; "ImportError"; "ImportWarning";
    "IndentationError"; "IndexError"; "InterruptedError";
    "IsADirectoryError"; "KeyError"; "KeyboardInterrupt"; "LookupError";
    "MemoryError"; "ModuleNotFoundError"; "NameError";
    "NotADirectoryError"; "NotImplementedError"; "OSError"; "OverflowError";
    "PendingDeprecationWarning"; "PermissionError"; "ProcessLookupError";
    "RecursionError"; "ReferenceError"; "ResourceWarning"; "RuntimeError";
    "RuntimeWarning"; "StopAsyncIteration"; "StopIteration"; "SyntaxError";
    "SyntaxWarning"; "SystemError"; "SystemExit"; "TabError";
    "TimeoutError"; "TypeError"; "UnboundLocalError"; "UnicodeDecodeError";
    "UnicodeEncodeError"; "UnicodeError"; "UnicodeTranslateError";
    "UnicodeWarning"; "UserWarning"; "ValueError"; "Warning";
    "ZeroDivisionError" ].

(** Reading a name that no enclosing function binds: the module's
    globals, then the builtins, else [NameError].  The methods below
    use the names the module does bind ([gl], [ct], the dictionaries,
    [len], the exception classes) directly; [names_read] lists them. *)
Definition load_global (name : string) : M unit :=
  if bool_decide (name ∈ module_globals) || bool_decide (name ∈ builtins)
  then mret tt
  else raise (NameError name).

Definition names_read : list string :=
  [ "gl"; "ct"; "_buffer_type_map"; "_dtype_map"; "_mode_map"; "len";
    "ValueError"; "Exception" ].

(** ** The three dictionaries *)

Definition _buffer_type_map : gmap string Z :=
  <["data" := gl.GL_ARRAY_BUFFER]> (<["elem" := gl.GL_ELEMENT_ARRAY_BUFFER]> ∅).

Definition _dtype_map : gmap string (ct.ctype * Z) :=
  <["float" := (gl.GLfloat, gl.GL_FLOAT)]>
    (<["uint" := (gl.GLuint, gl.GL_UNSIGNED_INT)]> ∅).

Definition _mode_map : gmap string Z :=
  <["POINTS" := gl.GL_POINTS]>
    (<["LINE_STRIP" := gl.GL_LINE_STRIP]>
       (<["LINE_LOOP" := gl.GL_LINE_LOOP]>
          (<["TRIANGLES" := gl.GL_TRIANGLES]>
             (<["TRIANGLE_FAN" := gl.GL_TRIANGLE_FAN]> ∅)))).

(** [d[key]]: the value, or [KeyError] carrying the key. *)
Definition getitem {V : Type} (d : gmap string V) (key : string) : M V :=
  match d !! key with
  | Some v => mret v
  | None => raise (KeyError key)
  end.

(** [len(x)] where [x] is a list or [None]. *)
Definition len {A : Type} (x : option (list A)) : M Z :=
  match x with
  | Some l => mret (Z.of_nat (length l))
  | None => raise (TypeError "object of type 'NoneType' has no len()")
  end.

(** ** The classes and attribute lookup *)

Inductive pyclass :=
| class_object
| class_GLObject
| class_VertexBuffer
| class_Texture
| class_DummyFrameBuffer
| class_FrameBuffer.

Definition class_name (c : pyclass) : string :=
  match c with
  | class_object => "object"
  | class_GLObject => "GLObject"
  | class_VertexBuffer => "VertexBuffer"
  | class_Texture => "Texture"
  | class_DummyFrameBuffer => "DummyFrameBuffer"
  | class_FrameBuffer => "FrameBuffer"
  end.

(** The base named in the [class] statement; a class that names none
    derives from [object]. *)
Definition base (c : pyclass) : option pyclass :=
  match c with
  | class_object => None
  | class_GLObject => Some class_object
  | class_VertexBuffer => Some class_GLObject
  | class_Texture => Some class_GLObject
  | class_DummyFrameBuffer => Some class_object
  | class_FrameBuffer => Some class_GLObject
  end.

(** The names a class body binds ([def]s, decorated or not), and for
    [object] the names every object has. *)
Definition namespace (c : pyclass) : list string :=
  match c with
  | class_object =>
      [ "__class__"; "__delattr__"; "__dir__"; "__doc__"; "__eq__";
        "__format__"; "__ge__"; "__getattribute__"; "__getstate__";
        "__gt__"; "__hash__"; "__init__"; "__init_subclass__"; "__le__";
        "__lt__"; "__ne__"; "__new__"; "__reduce__"; "__reduce_ex__";
        "__repr__"; "__setattr__"; "__sizeof__"; "__str__";
        "__subclasshook__" ]
  | class_GLObject =>
      [ "activate"; "deactivate"; "delete"; "id" ]
  | class_VertexBuffer =>
      [ "__init__"; "data"; "activate"; "deactivate"; "deactivate_all";
        "draw"; "delete" ]
  | class_Texture =>
      [ "__init__"; "data"; "_set_texture_parameters"; "activate";
        "deactivate"; "delete" ]
  | class_DummyFrameBuffer =>
      [ "__init__"; "activate"; "deactivate"; "attach_texture"; "delete" ]
  | class_FrameBuffer =>
      [ "__init__"; "_check_completion_status"; "activate"; "deactivate";
        "attach_texture"; "delete"; "__del__" ]
  end.

(** The names a class statement adds to every class it creates. *)
Definition implicit_names : list string :=
  [ "__module__"; "__qualname__"; "__dict__"; "__weakref__"; "__doc__" ].

(** The attributes [__init__] assigns on [self]. *)
Definition instance_attributes (c : pyclass) : list string :=
  match c with
  | class_VertexBuffer =>
      [ "buffer_type"; "_type"; "data_type"; "_dtype"; "_dtype_const";
        "_data"; "_id" ]
  | class_Texture => [ "_id"; "width"; "height"; "_data" ]
  | class_FrameBuffer => [ "_id" ]
  | class_object | class_GLObject | class_DummyFrameBuffer => []
  end.

(** The method resolution order: the class, then its bases up to
    [object]. *)
Definition mro (c : pyclass) : list pyclass :=
  match base c with
  | None => [c]
  | Some b =>
      match base b with
      | None => [c; b]
      | Some b' => [c; b; b']
      end
  end.

(** Whether [name] is found on an instance of [c]: among the attributes
    of the instance or in the namespace of a class of the resolution
    order. *)
Definition has_attribute (c : pyclass) (name : string) : bool :=
  bool_decide (name ∈ instance_attributes c)
  || existsb (fun k => bool_decide (name ∈ namespace k)) (mro c)
  || match c with
     | class_object => false
     | _ => bool_decide (name ∈ implicit_names)
     end.

(** [getattr(obj, name)] for an instance [obj] of [c]. *)
Definition getattr (c : pyclass) (name : string) : outcome unit :=
  if has_attribute c name then Ok tt
  else Raise (AttributeError (class_name c) name).

(** The operations of the contract [GLObject] declares: the three
    abstract methods and the [id] property. *)
Definition resource_interface : list string :=
  [ "activate"; "deactivate"; "delete"; "id" ].

(** ** class VertexBuffer(GLObject) *)

Module VertexBuffer.

Record t := {
  buffer_type : string;
  _type : Z;
  data_type : string;
  _dtype : ct.ctype;
  _dtype_const : Z;
  _data : option (list pynum);
  _id : Z
}.

Definition set__data (value : option (list pynum)) (self : t) : t :=
  {| buffer_type := buffer_type self; _type := _type self;
     data_type := data_type self; _dtype := _dtype self;
     _dtype_const := _dtype_const self; _data := value; _id := _id self |}.

(** The [id] property inherited from [GLObject]. *)
Definition id (self : t) : Z := _id self.

(** The [data] property. *)
Definition data (self : t) : option (list pynum) := _data self.

Definition activate (self : t) : M unit :=
  gl.glBindBuffer (_type self) (_id self).

Definition deactivate (self : t) : M unit :=
  gl.glBindBuffer (_type self) 0.

(** The setter of the [data] property.  It returns [self] after the
    assignment to [self._data]; when it raises, [self] is as before. *)
Definition data_setter (self : t) (value : list pynum) : M t :=
  value_typed ← lift (ct.make_array (_dtype self) value);
  activate self ;;
  gl.glBufferData (_type self) (ct.sizeof value_typed) value_typed
    gl.GL_STATIC_DRAW ;;
  deactivate self ;;
  mret (set__data (Some value) self).

(** The constructor; [data = None] is the [data=None] default. *)
Definition __init__ (dtype : string) (data : option (list pynum))
  (buffer_type : string) : M t :=
  type ← getitem _buffer_type_map buffer_type;
  dt ← getitem _dtype_map dtype;
  name ← gl.glGenBuffers;
  let self :=
    {| buffer_type := buffer_type; _type := type; data_type := dtype;
       _dtype := dt.1; _dtype_const := dt.2; _data := None; _id := name |} in
  match data with
  | Some value => data_setter self value
  | None => mret self
  end.

Definition deactivate_all : M unit :=
  gl.glBindBuffer gl.GL_ARRAY_BUFFER 0 ;;
  gl.glBindBuffer gl.GL_ELEMENT_ARRAY_BUFFER 0.

Definition draw (self : t) (mode : string) : M unit :=
  draw_mode ← getitem _mode_map mode;
  activate self ;;
  (if String.eqb (buffer_type self) "elem"
   then
     count ← len (data self);
     gl.glDrawElements draw_mode count (_dtype_const self) 0
   else raise (ValueError "cannot draw a data buffer.")) ;;
  deactivate self.

(** What the constructor establishes between the fields, and the setter
    keeps. *)
Definition invariant (self : t) : Prop :=
  _buffer_type_map !! buffer_type self = Some (_type self)
  ∧ _dtype_map !! data_type self = Some (_dtype self, _dtype_const self).

End VertexBuffer.

(** ** class Texture(GLObject) *)

Module Texture.

Record t := {
  _id : Z;
  width : Z;
  height : Z;
  _data : option (list Z)
}.

Definition id (self : t) : Z := _id self.

Definition data (self : t) : option (list Z) := _data self.

Definition __init__ (width height : Z) : M t :=
  name ← gl.glGenTextures;
  mret {| _id := name; width := width; height := height; _data := None |}.

Definition _set_texture_parameters (self : t) : M unit :=
  gl.glTexParameteri gl.GL_TEXTURE_2D gl.GL_TEXTURE_WRAP_S
    gl.GL_CLAMP_TO_EDGE ;;
  gl.glTexParameteri gl.GL_TEXTURE_2D gl.GL_TEXTURE_WRAP_T
    gl.GL_CLAMP_TO_EDGE ;;
  gl.glTexParameteri gl.GL_TEXTURE_2D gl.GL_TEXTURE_MIN_FILTER gl.GL_LINEAR ;;
  gl.glTexParameteri gl.GL_TEXTURE_2D gl.GL_TEXTURE_MAG_FILTER gl.GL_LINEAR.

Definition activate (self : t) : M unit :=
  gl.glBindTexture gl.GL_TEXTURE_2D (_id self).

Definition deactivate (self : t) : M unit :=
  gl.glBindTexture gl.GL_TEXTURE_2D 0.

(** The setter of the [data] property; [value] is the pixel buffer. *)
Definition data_setter (self : t) (value : list Z) : M t :=
  activate self ;;
  gl.glTexImage2D gl.GL_TEXTURE_2D 0 gl.GL_RGB (width self) (height self) 0
    gl.GL_RGB gl.GL_UNSIGNED_BYTE value ;;
  _set_texture_parameters self ;;
  let self' :=
    {| _id := _id self; width := width self; height := height self;
       _data := Some value |} in
  deactivate self' ;;
  mret self'.

End Texture.

(** ** class DummyFrameBuffer *)

(** Every method takes [*args, **kwargs] and its body is [pass]. *)
Module DummyFrameBuffer.

Record t := { }.

Definition __init__ {A B : Type} (args : list A) (kwargs : list (string * B)) :
  M t := mret Build_t.

Definition activate {A B : Type} (self : t) (args : list A)
  (kwargs : list (string * B)) : M unit := mret tt.

Definition deactivate {A B : Type} (self : t) (args : list A)
  (kwargs : list (string * B)) : M unit := mret tt.

Definition attach_texture {A B : Type} (self : t) (args : list A)
  (kwargs : list (string * B)) : M unit := mret tt.

Definition delete {A B : Type} (self : t) (args : list A)
  (kwargs : list (string * B)) : M unit := mret tt.

End DummyFrameBuffer.

(** ** class FrameBuffer(GLObject) *)

Module FrameBuffer.

Record t := { _id : Z }.

Definition id (self : t) : Z := _id self.

Definition _check_completion_status : M unit :=
  status ← gl.glCheckFramebufferStatusEXT gl.GL_FRAMEBUFFER_EXT;
  if bool_decide (status ≠ gl.GL_FRAMEBUFFER_COMPLETE_EXT)
  then
    let msg := "ERR " +:+ pretty status +:+ ": FrameBuffer could not be created." in
    raise (Exception msg)
  else mret tt.

(** The constructor reads the bare names [Gluint] and [pointer]; the
    module binds neither (it binds [gl] and [ct]). *)
Definition __init__ : M t :=
  load_global "Gluint" ;;
  load_global "pointer" ;;
  name ← gl.glGenFramebuffersEXT;
  _check_completion_status ;;
  mret {| _id := name |}.

Definition activate (self : t) : M unit :=
  gl.glBindFramebufferEXT gl.GL_FRAMEBUFFER_EXT (_id self).

Definition deactivate (self : t) : M unit :=
  gl.glBindFramebufferEXT gl.GL_FRAMEBUFFER_EXT (_id self).

Definition attach_texture (self : t) (texture : Texture.t) : M unit :=
  activate self ;;
  gl.glFramebufferTexture2DEXT gl.GL_FRAMEBUFFER_EXT
    gl.GL_COLOR_ATTACHMENT0_EXT gl.GL_TEXTURE_2D (Texture.id texture) 0 ;;
  deactivate self.

End FrameBuffer.

(** ** Vocabulary of the properties *)

(** The initialisers an element type takes. *)
Definition accepts (t : ct.ctype) (v : pynum) : Prop :=
  match t, v with
  | ct.c_uint, PyInt _ => True
  | ct.c_uint, PyFloat _ => False
  | ct.c_float, PyInt z => Z.abs z < 2 ^ 1024 - 2 ^ 970
  | ct.c_float, PyFloat _ => True
  end.

(** Counting the commands of one kind in a piece of trace. *)
Fixpoint count (p : call → bool) (l : list call) : nat :=
  match l with
  | [] => O
  | e :: l' => ((if p e then 1 else 0) + count p l')%nat
  end.

Definition is_allocation (e : call) : bool :=
  match e with
  | GenBuffers _ _ | GenTextures _ _ | GenFramebuffersEXT _ _ => true
  | _ => false
  end.

Definition is_upload (e : call) : bool :=
  match e with
  | BufferData _ _ _ _ => true
  | _ => false
  end.

Definition is_draw (e : call) : bool :=
  match e with
  | DrawElements _ _ _ _ => true
  | _ => false
  end.

(** The five primitive modes, with their enumerants. *)
Definition primitive_modes : list (string * Z) :=
  [ ("POINTS", gl.GL_POINTS); ("LINE_STRIP", gl.GL_LINE_STRIP);
    ("LINE_LOOP", gl.GL_LINE_LOOP); ("TRIANGLES", gl.GL_TRIANGLES);
    ("TRIANGLE_FAN", gl.GL_TRIANGLE_FAN) ].

(** Sample objects: a context whose status query answers "complete",
    a vertex-data buffer of floats, and an index buffer of uint32
    elements, holding three elements or none yet. *)
Definition sample_context : context :=
  fresh_context gl.GL_FRAMEBUFFER_COMPLETE_EXT.

Definition sample_data_buffer : VertexBuffer.t :=
  {| VertexBuffer.buffer_type := "data";
     VertexBuffer._type := gl.GL_ARRAY_BUFFER;
     VertexBuffer.data_type := "float";
     VertexBuffer._dtype := gl.GLfloat;
     VertexBuffer._dtype_const := gl.GL_FLOAT;
     VertexBuffer._data := None;
     VertexBuffer._id := 1 |}.

Definition sample_index_buffer : VertexBuffer.t :=
  {| VertexBuffer.buffer_type := "elem";
     VertexBuffer._type := gl.GL_ELEMENT_ARRAY_BUFFER;
     VertexBuffer.data_type := "uint";
     VertexBuffer._dtype := gl.GLuint;
     VertexBuffer._dtype_const := gl.GL_UNSIGNED_INT;
     VertexBuffer._data := Some [PyInt 0; PyInt 1; PyInt 2];
     VertexBuffer._id := 2 |}.

Definition empty_index_buffer : VertexBuffer.t :=
  VertexBuffer.set__data None sample_index_buffer.

(** The Python float 1.5. *)
Definition one_and_a_half : pynum := PyFloat 0x3FF8000000000000.

(** The color attachments a driver holds after the commands of a trace:
    an attachment command on [GL_FRAMEBUFFER_EXT] goes to the
    framebuffer bound to that target when it is issued.  The state is
    the framebuffer bound and the map from (framebuffer, attachment
    point) to the attached texture. *)
Definition replay_attachment (st : Z * gmap (Z * Z) Z) (e : call) :
  Z * gmap (Z * Z) Z :=
  match e with
  | BindFramebufferEXT target framebuffer =>
      if bool_decide (target = gl.GL_FRAMEBUFFER_EXT)
      then (framebuffer, st.2) else st
  | FramebufferTexture2DEXT target attachment _ texture _ =>
      if bool_decide (target = gl.GL_FRAMEBUFFER_EXT)
      then (st.1, <[(st.1, attachment) := texture]> st.2) else st
  | _ => st
  end.

Definition attachments (trace : list call) : gmap (Z * Z) Z :=
  (foldl replay_attachment (0, ∅) trace).2.



(** The error ctypes raises when an element type refuses an
    initialiser. *)
Definition refusal (t : ct.ctype) : exn :=
  match t with
  | ct.c_uint => TypeError "int expected instead of float"
  | ct.c_float => OverflowError "int too large to convert to float"
  end.

(** A second sample: a texture of 2 by 2 pixels and a framebuffer
    object, with the names 3 and 4. *)
Definition sample_texture : Texture.t :=
  {| Texture._id := 3; Texture.width := 2; Texture.height := 2;
     Texture._data := None |}.

Definition sample_framebuffer : FrameBuffer.t := {| FrameBuffer._id := 4 |}.

(** Unfolds the commands and the methods that neither branch nor
    raise, down to the context they produce. *)
Ltac run :=
  cbv beta iota zeta delta
    [ mbind M_bind mret M_ret raise lift issue record set_bound set_buffers
      set_textures set_framebuffers set_buffer_store set_tex_parameter
      bound buffers textures framebuffers buffer_store tex_parameter
      framebuffer_status calls slot sampling issued len
      gl.glGenBuffers gl.glBindBuffer gl.glBufferData gl.glDrawElements
      gl.glGenTextures gl.glBindTexture gl.glTexImage2D gl.glTexParameteri
      gl.glGenFramebuffersEXT gl.glCheckFramebufferStatusEXT
      gl.glBindFramebufferEXT gl.glFramebufferTexture2DEXT
      VertexBuffer.activate VertexBuffer.deactivate VertexBuffer.deactivate_all
      VertexBuffer.id VertexBuffer.data VertexBuffer.set__data
      VertexBuffer.buffer_type VertexBuffer._type VertexBuffer.data_type
      VertexBuffer._dtype VertexBuffer._dtype_const VertexBuffer._data
      VertexBuffer._id
      Texture.activate Texture.deactivate Texture._set_texture_parameters
      Texture.data_setter Texture.__init__ Texture.id Texture.data
      Texture._id Texture.width Texture.height Texture._data
      FrameBuffer.activate FrameBuffer.deactivate FrameBuffer.attach_texture
      FrameBuffer.id FrameBuffer._id ].

(** Rewrites the lookups of a key in a map built by insertions. *)
Ltac lookups :=
  cbv beta iota;
  repeat first
    [ rewrite lookup_insert_eq
    | rewrite lookup_insert_ne by (vm_compute; congruence) ];
  cbv [default from_option id].

(** * Properties *)

(** ** Running computations *)

Lemma bind_ok {A B : Type} (m : M A) (f : A → M B) (c c' : context) (a : A) :
  m c = (Ok a, c') → (m ≫= f) c = f a c'.
Proof. intros H. unfold mbind, M_bind. by rewrite H. Qed.

Lemma bind_raise {A B : Type} (m : M A) (f : A → M B) (c c' : context) (e : exn) :
  m c = (Raise e, c') → (m ≫= f) c = (Raise e, c').
Proof. intros H. unfold mbind, M_bind. by rewrite H. Qed.

Lemma getitem_Some {V : Type} (d : gmap string V) (key : string) (v : V) (c : context) :
  d !! key = Some v → getitem d key c = (Ok v, c).
Proof. intros H. unfold getitem. by rewrite H. Qed.

Lemma getitem_None {V : Type} (d : gmap string V) (key : string) (c : context) :
  d !! key = None → getitem d key c = (Raise (KeyError key), c).
Proof. intros H. unfold getitem. by rewrite H. Qed.

Lemma names_read_resolve (name : string) (c : context) :
  name ∈ names_read → load_global name c = (Ok tt, c).
Proof.
  unfold names_read. rewrite !elem_of_cons, elem_of_nil.
  intros [->|[->|[->|[->|[->|[->|[->|[->|[]]]]]]]]]; reflexivity.
Qed.

Lemma issued_nil (c : context) : issued c c [].
Proof. unfold issued. by rewrite app_nil_r. Qed.

Lemma issued_trans (c1 c2 c3 : context) (l1 l2 : list call) :
  issued c1 c2 l1 → issued c2 c3 l2 → issued c1 c3 (l1 ++ l2).
Proof. unfold issued. intros H1 H2. by rewrite H2, H1, app_assoc. Qed.

(** ** The dictionaries, key by key *)

Lemma _buffer_type_map_Some (key : string) (v : Z) :
  _buffer_type_map !! key = Some v ↔
  (key = "data" ∧ v = gl.GL_ARRAY_BUFFER)
  ∨ (key = "elem" ∧ v = gl.GL_ELEMENT_ARRAY_BUFFER).
Proof.
  unfold _buffer_type_map.
  rewrite !lookup_insert_Some, lookup_empty. intuition congruence.
Qed.

Lemma _dtype_map_Some (key : string) (v : ct.ctype * Z) :
  _dtype_map !! key = Some v ↔
  (key = "float" ∧ v = (gl.GLfloat, gl.GL_FLOAT))
  ∨ (key = "uint" ∧ v = (gl.GLuint, gl.GL_UNSIGNED_INT)).
Proof.
  unfold _dtype_map.
  rewrite !lookup_insert_Some, lookup_empty. intuition congruence.
Qed.

Lemma _mode_map_Some (key : string) (v : Z) :
  _mode_map !! key = Some v ↔
  (key = "POINTS" ∧ v = gl.GL_POINTS)
  ∨ (key = "LINE_STRIP" ∧ v = gl.GL_LINE_STRIP)
  ∨ (key = "LINE_LOOP" ∧ v = gl.GL_LINE_LOOP)
  ∨ (key = "TRIANGLES" ∧ v = gl.GL_TRIANGLES)
  ∨ (key = "TRIANGLE_FAN" ∧ v = gl.GL_TRIANGLE_FAN).
Proof.
  unfold _mode_map.
  rewrite !lookup_insert_Some, lookup_empty. intuition congruence.
Qed.

(** ** Fresh names *)

Lemma fresh_name_above (live : list Z) (n : Z) :
  n ∈ live → n < fresh_name live.
Proof.
  unfold fresh_name. induction live as [|m live IH]; intros Hn.
  - by apply elem_of_nil in Hn.
  - apply elem_of_cons in Hn as [->|Hn]; simpl; [lia|].
    specialize (IH Hn). lia.
Qed.

Lemma fresh_name_positive (live : list Z) : 0 < fresh_name live.
Proof.
  unfold fresh_name. induction live as [|m live IH]; simpl; lia.
Qed.

Lemma fresh_name_not_live (live : list Z) : fresh_name live ∉ live.
Proof. intros H. apply fresh_name_above in H. lia. Qed.

(** ** Binding and unbinding *)

Lemma VertexBuffer_activate_run (self : VertexBuffer.t) (c : context) :
  ∃ c', VertexBuffer.activate self c = (Ok tt, c')
    ∧ slot c' (VertexBuffer._type self) = VertexBuffer.id self
    ∧ issued c c' [BindBuffer (VertexBuffer._type self) (VertexBuffer.id self)].
Proof.
  eexists. split; [reflexivity|]. unfold slot, issued. cbn.
  by rewrite lookup_insert_eq.
Qed.

(** X2 ([VertexBuffer.deactivate], [Texture.deactivate]).  Deactivating
    a buffer binds 0 to the buffer's target, and deactivating a texture
    binds 0 to [GL_TEXTURE_2D]; each issues that one command. *)
Theorem deactivate_binds_zero :
  (∀ (self : VertexBuffer.t) (c : context),
     ∃ c', VertexBuffer.deactivate self c = (Ok tt, c')
       ∧ slot c' (VertexBuffer._type self) = 0
       ∧ issued c c' [BindBuffer (VertexBuffer._type self) 0])
  ∧ (∀ (self : Texture.t) (c : context),
       ∃ c', Texture.deactivate self c = (Ok tt, c')
         ∧ slot c' gl.GL_TEXTURE_2D = 0
         ∧ issued c c' [BindTexture gl.GL_TEXTURE_2D 0]).
Proof.
  split; intros self c; (eexists; split; [reflexivity|]);
    unfold slot, issued; cbn; by rewrite lookup_insert_eq.
Qed.

(** ** ctypes conversion *)

Lemma convert_accepts (t : ct.ctype) (v : pynum) :
  accepts t v ↔ ∃ x, ct.convert t v = Ok x.
Proof.
  destruct t, v; simpl.
  - destruct (Z.ltb_spec (Z.abs z) (2 ^ 1024 - 2 ^ 970)); split.
    + eauto.
    + done.
    + lia.
    + by intros [x Hx].
  - split; eauto.
  - split; eauto.
  - split; [done | by intros [x Hx]].
Qed.

Lemma convert_all_accepts (t : ct.ctype) (value : list pynum) :
  Forall (accepts t) value →
  ∃ cs, ct.convert_all t value = Ok cs ∧ length cs = length value.
Proof.
  induction 1 as [|v value Hv _ IH]; [by exists []|].
  apply convert_accepts in Hv as [x Hx]. destruct IH as (cs & Hcs & Hlen).
  exists (x :: cs). simpl. rewrite Hx, Hcs. by rewrite <- Hlen.
Qed.

Lemma convert_all_refuses (t : ct.ctype) (value : list pynum) :
  ¬ Forall (accepts t) value → ∃ e, ct.convert_all t value = Raise e.
Proof.
  induction value as [|v value IH]; intros Hn; [by destruct Hn|].
  simpl. destruct (ct.convert t v) as [x|e] eqn:Hx; [|by eexists].
  destruct (ct.convert_all t value) as [cs|e] eqn:Hcs; [|by eexists].
  destruct IH as [e He]; [|done].
  intros Hall. apply Hn. constructor; [|done].
  apply convert_accepts. by eexists.
Qed.

Lemma make_array_accepts (t : ct.ctype) (value : list pynum) :
  Forall (accepts t) value →
  ∃ a, ct.make_array t value = Ok a
    ∧ ct.elem_type a = t
    ∧ ct.sizeof a = 4 * Z.of_nat (length value).
Proof.
  intros H. destruct (convert_all_accepts t value H) as (cs & Hcs & Hlen).
  eexists. unfold ct.make_array. rewrite Hcs. split; [done|].
  split; [done|]. unfold ct.sizeof. simpl. by rewrite Hlen.
Qed.

(** ** The setter and the constructor, step by step *)

Lemma data_setter_accepted (self : VertexBuffer.t) (value : list pynum)
  (a : ct.array) (c : context) :
  ct.make_array (VertexBuffer._dtype self) value = Ok a →
  ∃ c',
    VertexBuffer.data_setter self value c
      = (Ok (VertexBuffer.set__data (Some value) self), c')
    ∧ issued c c'
        [ BindBuffer (VertexBuffer._type self) (VertexBuffer.id self);
          BufferData (VertexBuffer._type self) (ct.sizeof a) a gl.GL_STATIC_DRAW;
          BindBuffer (VertexBuffer._type self) 0 ]
    ∧ slot c' (VertexBuffer._type self) = 0
    ∧ buffer_store c' !! VertexBuffer.id self = Some a
    ∧ buffers c' = buffers c.
Proof.
  intros Ha. unfold VertexBuffer.data_setter.
  rewrite (bind_ok _ _ c c a) by (unfold lift; by rewrite Ha).
  destruct self as [bt ty dtn dt dc d name], c as [bd bufs texs fbs store tp st cs].
  run. eexists. split; [reflexivity|].
  lookups. repeat split. by rewrite <- !app_assoc.
Qed.

Lemma data_setter_refused (self : VertexBuffer.t) (value : list pynum)
  (e : exn) (c : context) :
  ct.make_array (VertexBuffer._dtype self) value = Raise e →
  VertexBuffer.data_setter self value c = (Raise e, c).
Proof.
  intros Ha. unfold VertexBuffer.data_setter.
  apply bind_raise. unfold lift. by rewrite Ha.
Qed.

(** ** The invariant of a buffer *)

Lemma invariant_data_buffer (self : VertexBuffer.t) :
  VertexBuffer.invariant self → VertexBuffer.buffer_type self = "data" →
  VertexBuffer._type self = gl.GL_ARRAY_BUFFER.
Proof.
  intros [Hty _] Hbt. rewrite Hbt in Hty.
  apply _buffer_type_map_Some in Hty as [[_ ->]|[? _]]; [done|discriminate].
Qed.

Lemma invariant_index_buffer (self : VertexBuffer.t) :
  VertexBuffer.invariant self → VertexBuffer.buffer_type self = "elem" →
  VertexBuffer._type self = gl.GL_ELEMENT_ARRAY_BUFFER.
Proof.
  intros [Hty _] Hbt. rewrite Hbt in Hty.
  apply _buffer_type_map_Some in Hty as [[? _]|[_ ->]]; [discriminate|done].
Qed.

Lemma invariant_set__data (self : VertexBuffer.t) (d : option (list pynum)) :
  VertexBuffer.invariant self →
  VertexBuffer.invariant (VertexBuffer.set__data d self).
Proof. by destruct self. Qed.

(** ** Drawing *)

(** Drawing a buffer that is not an index buffer: the mode is looked
    up, the buffer is bound, and the [else] branch raises. *)
Lemma draw_not_elem (self : VertexBuffer.t) (mode : string) (m : Z) (c : context) :
  VertexBuffer.buffer_type self ≠ "elem" →
  _mode_map !! mode = Some m →
  ∃ c',
    VertexBuffer.draw self mode c
      = (Raise (ValueError "cannot draw a data buffer."), c')
    ∧ issued c c' [BindBuffer (VertexBuffer._type self) (VertexBuffer.id self)]
    ∧ slot c' (VertexBuffer._type self) = VertexBuffer.id self.
Proof.
  intros Hbt Hm. unfold VertexBuffer.draw.
  rewrite (bind_ok _ _ c c m) by by apply getitem_Some.
  apply String.eqb_neq in Hbt. rewrite Hbt.
  destruct self as [bt ty dtn dt dc d name], c as [bd bufs texs fbs store tp st cs].
  run. eexists. split; [reflexivity|]. lookups. done.
Qed.

Lemma draw_elem (self : VertexBuffer.t) (mode : string) (m : Z)
  (value : list pynum) (c : context) :
  VertexBuffer.buffer_type self = "elem" →
  VertexBuffer.data self = Some value →
  _mode_map !! mode = Some m →
  ∃ c',
    VertexBuffer.draw self mode c = (Ok tt, c')
    ∧ issued c c'
        [ BindBuffer (VertexBuffer._type self) (VertexBuffer.id self);
          DrawElements m (Z.of_nat (length value))
            (VertexBuffer._dtype_const self) 0;
          BindBuffer (VertexBuffer._type self) 0 ]
    ∧ slot c' (VertexBuffer._type self) = 0.
Proof.
  intros Hbt Hd Hm. unfold VertexBuffer.draw.
  rewrite (bind_ok _ _ c c m) by by apply getitem_Some.
  rewrite Hbt. change (String.eqb "elem" "elem") with true. cbv iota.
  destruct self as [bt ty dtn dt dc d name], c as [bd bufs texs fbs store tp st cs].
  cbv [VertexBuffer.data VertexBuffer._data] in Hd. subst d.
  run. eexists. split; [reflexivity|]. lookups.
  split; [|done]. by rewrite <- !app_assoc.
Qed.

Lemma draw_bad_mode (self : VertexBuffer.t) (mode : string) (c : context) :
  _mode_map !! mode = None →
  VertexBuffer.draw self mode c = (Raise (KeyError mode), c).
Proof.
  intros Hm. unfold VertexBuffer.draw. apply bind_raise. by apply getitem_None.
Qed.

(** C2.  [draw] on a vertex-data buffer ([buffer_type = 'data']) raises
    for every [mode]; no [DrawElements] command is among those it
    issues; and for each primitive mode (each key of [_mode_map]) the
    error is [ValueError "cannot draw a data buffer."].  A [mode] that
    is no key raises [KeyError] instead. *)
Theorem draw_data_buffer_InvalidOperation
  (self : VertexBuffer.t) (mode : string) (c : context) :
  VertexBuffer.buffer_type self = "data" →
  ∃ e c' new,
    VertexBuffer.draw self mode c = (Raise e, c')
    ∧ issued c c' new
    ∧ count is_draw new = 0%nat
    ∧ (is_Some (_mode_map !! mode) → e = ValueError "cannot draw a data buffer.")
    ∧ (_mode_map !! mode = None → e = KeyError mode).
Proof.
  intros Hbt. destruct (_mode_map !! mode) as [m|] eqn:Hm.
  - destruct (draw_not_elem self mode m c) as (c' & Hrun & Hissued & _);
      [by rewrite Hbt | done |].
    exists (ValueError "cannot draw a data buffer."), c', 
      [BindBuffer (VertexBuffer._type self) (VertexBuffer.id self)].
    by repeat split.
  - exists (KeyError mode), c, [].
    repeat split; [by apply draw_bad_mode | apply issued_nil | by intros [? ?]].
Qed.

Lemma draw_data_buffer_InvalidOperation_witness :
  ∃ e c' new,
    VertexBuffer.draw sample_data_buffer "TRIANGLES" sample_context = (Raise e, c')
    ∧ issued sample_context c' new
    ∧ count is_draw new = 0%nat
    ∧ (is_Some (_mode_map !! "TRIANGLES") →
       e = ValueError "cannot draw a data buffer.")
    ∧ (_mode_map !! "TRIANGLES" = None → e = KeyError "TRIANGLES").
Proof.
  apply (draw_data_buffer_InvalidOperation sample_data_buffer "TRIANGLES"
           sample_context).
  reflexivity.
Defined.

(** C9.  When [draw] on a vertex-data buffer raises for a primitive
    mode, the only command issued is the binding of the buffer: the
    [GL_ARRAY_BUFFER] slot holds the buffer's name in the context the
    error propagates with, and no unbinding follows. *)
Theorem draw_data_buffer_stays_bound
  (self : VertexBuffer.t) (mode : string) (c : context) :
  VertexBuffer.invariant self →
  VertexBuffer.buffer_type self = "data" →
  is_Some (_mode_map !! mode) →
  ∃ c',
    VertexBuffer.draw self mode c
      = (Raise (ValueError "cannot draw a data buffer."), c')
    ∧ slot c' gl.GL_ARRAY_BUFFER = VertexBuffer.id self
    ∧ issued c c' [BindBuffer gl.GL_ARRAY_BUFFER (VertexBuffer.id self)].
Proof.
  intros Hinv Hbt [m Hm].
  destruct (draw_not_elem self mode m c) as (c' & Hrun & Hissued & Hslot);
    [by rewrite Hbt | done |].
  rewrite (invariant_data_buffer self Hinv Hbt) in Hissued, Hslot.
  by exists c'.
Qed.

Lemma sample_data_buffer_invariant : VertexBuffer.invariant sample_data_buffer.
Proof. by split. Qed.

Lemma sample_index_buffer_invariant : VertexBuffer.invariant sample_index_buffer.
Proof. by split. Qed.

Lemma draw_data_buffer_stays_bound_witness :
  ∃ c',
    VertexBuffer.draw sample_data_buffer "POINTS" sample_context
      = (Raise (ValueError "cannot draw a data buffer."), c')
    ∧ slot c' gl.GL_ARRAY_BUFFER = 1
    ∧ issued sample_context c' [BindBuffer gl.GL_ARRAY_BUFFER 1].
Proof.
  apply (draw_data_buffer_stays_bound sample_data_buffer "POINTS" sample_context).
  - apply sample_data_buffer_invariant.
  - reflexivity.
  - exists gl.GL_POINTS. reflexivity.
Defined.

(** ** Construction of a buffer *)

Lemma init_valid (dtype buffer_type : string) (data : option (list pynum))
  (type : Z) (t : ct.ctype) (const : Z) (c : context) :
  _buffer_type_map !! buffer_type = Some type →
  _dtype_map !! dtype = Some (t, const) →
  let name := fresh_name (buffers c) in
  let self :=
    {| VertexBuffer.buffer_type := buffer_type; VertexBuffer._type := type;
       VertexBuffer.data_type := dtype; VertexBuffer._dtype := t;
       VertexBuffer._dtype_const := const; VertexBuffer._data := None;
       VertexBuffer._id := name |} in
  let c1 := record (GenBuffers 1 name) (set_buffers (name :: buffers c) c) in
  VertexBuffer.__init__ dtype data buffer_type c =
    match data with
    | Some value => VertexBuffer.data_setter self value c1
    | None => (Ok self, c1)
    end.
Proof.
  intros Hbt Hdt name self c1. unfold VertexBuffer.__init__.
  rewrite (bind_ok _ _ c c type) by by apply getitem_Some.
  rewrite (bind_ok _ _ c c (t, const)) by by apply getitem_Some.
  rewrite (bind_ok _ _ c c1 name) by reflexivity.
  by destruct data.
Qed.

Lemma init_invalid (dtype buffer_type : string) (data : option (list pynum))
  (c : context) :
  _buffer_type_map !! buffer_type = None ∨ _dtype_map !! dtype = None →
  ∃ key,
    VertexBuffer.__init__ dtype data buffer_type c = (Raise (KeyError key), c)
    ∧ (key = buffer_type ∨ key = dtype).
Proof.
  intros H. unfold VertexBuffer.__init__.
  destruct (_buffer_type_map !! buffer_type) as [type|] eqn:Hbt.
  - destruct H as [H|Hdt]; [discriminate|].
    exists dtype. split; [|by right].
    rewrite (bind_ok _ _ c c type) by by apply getitem_Some.
    apply bind_raise. by apply getitem_None.
  - exists buffer_type. split; [|by left].
    apply bind_raise. by apply getitem_None.
Qed.

Lemma init_invariant (dtype buffer_type : string) (data : option (list pynum))
  (c c' : context) (self : VertexBuffer.t) :
  VertexBuffer.__init__ dtype data buffer_type c = (Ok self, c') →
  VertexBuffer.invariant self
  ∧ VertexBuffer.buffer_type self = buffer_type
  ∧ VertexBuffer.data_type self = dtype
  ∧ VertexBuffer.data self = data
  ∧ VertexBuffer.id self = fresh_name (buffers c).
Proof.
  intros Hrun.
  destruct (_buffer_type_map !! buffer_type) as [type|] eqn:Hbt;
    [|destruct (init_invalid dtype buffer_type data c) as (k & Hk & _);
      [by left | congruence]].
  destruct (_dtype_map !! dtype) as [[t const]|] eqn:Hdt;
    [|destruct (init_invalid dtype buffer_type data c) as (k & Hk & _);
      [by right | congruence]].
  rewrite (init_valid _ _ _ _ _ _ _ Hbt Hdt) in Hrun.
  destruct data as [value|].
  - match type of Hrun with
    | VertexBuffer.data_setter ?s _ ?k = _ =>
        set (self0 := s) in *; set (c1 := k) in *
    end.
    destruct (ct.make_array t value) as [a|e] eqn:Ha.
    + destruct (data_setter_accepted self0 value a c1 Ha) as (c2 & Hset & _).
      rewrite Hset in Hrun. injection Hrun as <- <-. by repeat split.
    + rewrite (data_setter_refused self0 value e c1) in Hrun by done.
      discriminate.
  - injection Hrun as <- <-. by repeat split.
Qed.

(** ** Drawing an index buffer *)

Lemma primitive_modes_lookup (mode : string) (m : Z) :
  (mode, m) ∈ primitive_modes ↔ _mode_map !! mode = Some m.
Proof.
  rewrite _mode_map_Some. unfold primitive_modes.
  rewrite !elem_of_cons, elem_of_nil. intuition congruence.
Qed.

(** C5.  For an index buffer ([buffer_type = 'elem']) holding a
    sequence of N elements and each of the five primitive modes,
    [draw] returns and issues exactly: bind the buffer to
    [GL_ELEMENT_ARRAY_BUFFER], one [DrawElements] with the mode's
    enumerant, count N, the buffer's element-type enumerant and offset
    0, bind 0; the slot holds 0 afterwards.  In particular a buffer
    constructed as [VertexBuffer('uint', [0, 1, 2], 'elem')] draws
    ['TRIANGLES'] with count 3 and type [GL_UNSIGNED_INT].
    [VertexBuffer.invariant] is what the constructor establishes
    ([init_invariant]). *)
Theorem draw_index_buffer_issues_one_draw :
  (∀ (self : VertexBuffer.t) (mode : string) (m : Z) (value : list pynum)
     (c : context),
     VertexBuffer.invariant self →
     VertexBuffer.buffer_type self = "elem" →
     VertexBuffer.data self = Some value →
     (mode, m) ∈ primitive_modes →
     ∃ c',
       VertexBuffer.draw self mode c = (Ok tt, c')
       ∧ issued c c'
           [ BindBuffer gl.GL_ELEMENT_ARRAY_BUFFER (VertexBuffer.id self);
             DrawElements m (Z.of_nat (length value))
               (VertexBuffer._dtype_const self) 0;
             BindBuffer gl.GL_ELEMENT_ARRAY_BUFFER 0 ]
       ∧ slot c' gl.GL_ELEMENT_ARRAY_BUFFER = 0)
  ∧ (∀ c : context,
       ∃ self c1 c2,
         VertexBuffer.__init__ "uint" (Some [PyInt 0; PyInt 1; PyInt 2]) "elem" c
           = (Ok self, c1)
         ∧ VertexBuffer.draw self "TRIANGLES" c1 = (Ok tt, c2)
         ∧ issued c1 c2
             [ BindBuffer gl.GL_ELEMENT_ARRAY_BUFFER (VertexBuffer.id self);
               DrawElements gl.GL_TRIANGLES 3 gl.GL_UNSIGNED_INT 0;
               BindBuffer gl.GL_ELEMENT_ARRAY_BUFFER 0 ]
         ∧ slot c2 gl.GL_ELEMENT_ARRAY_BUFFER = 0).
Proof.
  assert (Hgen : ∀ self mode m value c,
             VertexBuffer.invariant self →
             VertexBuffer.buffer_type self = "elem" →
             VertexBuffer.data self = Some value →
             (mode, m) ∈ primitive_modes →
             ∃ c',
               VertexBuffer.draw self mode c = (Ok tt, c')
               ∧ issued c c'
                   [ BindBuffer gl.GL_ELEMENT_ARRAY_BUFFER (VertexBuffer.id self);
                     DrawElements m (Z.of_nat (length value))
                       (VertexBuffer._dtype_const self) 0;
                     BindBuffer gl.GL_ELEMENT_ARRAY_BUFFER 0 ]
               ∧ slot c' gl.GL_ELEMENT_ARRAY_BUFFER = 0).
  { intros self mode m value c Hinv Hbt Hd Hm.
    apply primitive_modes_lookup in Hm.
    destruct (draw_elem self mode m value c Hbt Hd Hm) as (c' & Hrun & Hi & Hs).
    rewrite (invariant_index_buffer self Hinv Hbt) in Hi, Hs. by exists c'. }
  split; [exact Hgen|].
  intros c.
  destruct (VertexBuffer.__init__ "uint" (Some [PyInt 0; PyInt 1; PyInt 2])
              "elem" c) as [[self|e] c1] eqn:Hinit.
  - destruct (init_invariant _ _ _ _ _ _ Hinit) as (Hinv & Hbt & Hdt & Hd & _).
    destruct (Hgen self "TRIANGLES" gl.GL_TRIANGLES _ c1 Hinv Hbt Hd)
      as (c2 & Hrun & Hi & Hs).
    { apply primitive_modes_lookup. reflexivity. }
    exists self, c1, c2. repeat split; [done| |done].
    destruct Hinv as [_ Hconst]. rewrite Hdt in Hconst.
    apply _dtype_map_Some in Hconst as [[? _]|[_ Hc]]; [discriminate|].
    injection Hc as _ <-. exact Hi.
  - exfalso.
    rewrite (init_valid "uint" "elem" _ gl.GL_ELEMENT_ARRAY_BUFFER gl.GLuint
               gl.GL_UNSIGNED_INT c) in Hinit by reflexivity.
    match type of Hinit with
    | VertexBuffer.data_setter ?s ?v ?k = _ =>
        destruct (make_array_accepts gl.GLuint v) as (a & Ha & _);
        [ repeat constructor
        | destruct (data_setter_accepted s v a k Ha) as (c2 & Hset & _) ]
    end.
    rewrite Hset in Hinit. discriminate.
Qed.

Lemma draw_index_buffer_issues_one_draw_witness :
  ∃ c',
    VertexBuffer.draw sample_index_buffer "TRIANGLES" sample_context = (Ok tt, c')
    ∧ issued sample_context c'
        [ BindBuffer gl.GL_ELEMENT_ARRAY_BUFFER 2;
          DrawElements gl.GL_TRIANGLES 3 gl.GL_UNSIGNED_INT 0;
          BindBuffer gl.GL_ELEMENT_ARRAY_BUFFER 0 ]
    ∧ slot c' gl.GL_ELEMENT_ARRAY_BUFFER = 0.
Proof.
  apply (proj1 draw_index_buffer_issues_one_draw sample_index_buffer
           "TRIANGLES" gl.GL_TRIANGLES [PyInt 0; PyInt 1; PyInt 2]
           sample_context).
  - apply sample_index_buffer_invariant.
  - reflexivity.
  - reflexivity.
  - apply primitive_modes_lookup. reflexivity.
Defined.

(** ** The data setter of a buffer *)

(** C3, amended.  For a sequence whose elements the buffer's element
    type accepts, the setter of [data] returns, [data] then reads back
    the sequence, and the commands issued are exactly: bind the
    buffer's name to its target, upload the whole converted array
    ([4 * len] bytes, [GL_STATIC_DRAW]), bind 0; the slot holds 0 and
    the device copy of the buffer is the converted array. *)
Theorem data_setter_roundtrip
  (self : VertexBuffer.t) (value : list pynum) (c : context) :
  Forall (accepts (VertexBuffer._dtype self)) value →
  ∃ self' c' a,
    VertexBuffer.data_setter self value c = (Ok self', c')
    ∧ VertexBuffer.data self' = Some value
    ∧ VertexBuffer.id self' = VertexBuffer.id self
    ∧ ct.make_array (VertexBuffer._dtype self) value = Ok a
    ∧ issued c c'
        [ BindBuffer (VertexBuffer._type self) (VertexBuffer.id self);
          BufferData (VertexBuffer._type self) (4 * Z.of_nat (length value)) a
            gl.GL_STATIC_DRAW;
          BindBuffer (VertexBuffer._type self) 0 ]
    ∧ slot c' (VertexBuffer._type self) = 0
    ∧ buffer_store c' !! VertexBuffer.id self = Some a.
Proof.
  intros Hacc.
  destruct (make_array_accepts _ value Hacc) as (a & Ha & _ & Hsize).
  destruct (data_setter_accepted self value a c Ha)
    as (c' & Hrun & Hissued & Hslot & Hstore & _).
  exists (VertexBuffer.set__data (Some value) self), c', a.
  rewrite Hsize in Hissued. by destruct self.
Qed.

Lemma data_setter_roundtrip_witness :
  ∃ self' c' a,
    VertexBuffer.data_setter empty_index_buffer [PyInt 0; PyInt 1; PyInt 2]
      sample_context = (Ok self', c')
    ∧ VertexBuffer.data self' = Some [PyInt 0; PyInt 1; PyInt 2]
    ∧ VertexBuffer.id self' = 2
    ∧ ct.make_array gl.GLuint [PyInt 0; PyInt 1; PyInt 2] = Ok a
    ∧ issued sample_context c'
        [ BindBuffer gl.GL_ELEMENT_ARRAY_BUFFER 2;
          BufferData gl.GL_ELEMENT_ARRAY_BUFFER 12 a gl.GL_STATIC_DRAW;
          BindBuffer gl.GL_ELEMENT_ARRAY_BUFFER 0 ]
    ∧ slot c' gl.GL_ELEMENT_ARRAY_BUFFER = 0
    ∧ buffer_store c' !! 2 = Some a.
Proof.
  apply (data_setter_roundtrip empty_index_buffer [PyInt 0; PyInt 1; PyInt 2]
           sample_context).
  repeat constructor.
Defined.

(** C3, as stated, fails on a sequence the element type refuses: a
    uint32 buffer given [[1.5]] raises [TypeError] before any command,
    and [data] stays [None].  (A float32 buffer accepts the same
    sequence.) *)
Lemma data_setter_refuses_float_for_uint :
  Forall (accepts gl.GLfloat) [one_and_a_half]
  ∧ VertexBuffer.data_setter empty_index_buffer [one_and_a_half] sample_context
    = (Raise (TypeError "int expected instead of float"), sample_context)
  ∧ VertexBuffer.data empty_index_buffer = None
  ∧ ¬ ∃ self' c',
        VertexBuffer.data_setter empty_index_buffer [one_and_a_half]
          sample_context = (Ok self', c')
        ∧ VertexBuffer.data self' = Some [one_and_a_half].
Proof.
  split; [repeat constructor|].
  split; [reflexivity|]. split; [reflexivity|].
  intros (self' & c' & Hrun & _). discriminate.
Qed.

(** ** Allocation in the constructor of a buffer *)

(** C10.  A [buffer_type] or a [dtype] that is no key of its
    dictionary makes the constructor raise [KeyError] with the context
    unchanged, so no name was generated.  With both keys valid the
    constructor generates exactly one buffer name, fresh and non-zero;
    it uploads nothing when [data] is [None], and uploads once when
    [data] is a sequence the element type accepts (a sequence it
    refuses raises after the name was generated, with no upload). *)
Theorem init_allocates_after_lookups
  (dtype : string) (data : option (list pynum)) (buffer_type : string)
  (c : context) :
  let r := VertexBuffer.__init__ dtype data buffer_type c in
  (_buffer_type_map !! buffer_type = None ∨ _dtype_map !! dtype = None →
   ∃ key, r = (Raise (KeyError key), c) ∧ (key = buffer_type ∨ key = dtype))
  ∧ (∀ (type : Z) (t : ct.ctype) (const : Z),
       _buffer_type_map !! buffer_type = Some type →
       _dtype_map !! dtype = Some (t, const) →
       ∃ new,
         issued c r.2 new
         ∧ count is_allocation new = 1%nat
         ∧ buffers r.2 = (fresh_name (buffers c) :: buffers c)
         ∧ (fresh_name (buffers c) ∉ buffers c)
         ∧ fresh_name (buffers c) ≠ 0
         ∧ (data = None →
            count is_upload new = 0%nat
            ∧ ∃ self, r.1 = Ok self
                ∧ VertexBuffer.id self = fresh_name (buffers c)
                ∧ VertexBuffer.data self = None)
         ∧ (∀ value, data = Some value →
            (Forall (accepts t) value →
             count is_upload new = 1%nat
             ∧ ∃ self, r.1 = Ok self
                 ∧ VertexBuffer.id self = fresh_name (buffers c)
                 ∧ VertexBuffer.data self = Some value)
            ∧ (¬ Forall (accepts t) value →
               count is_upload new = 0%nat ∧ ∃ e, r.1 = Raise e))).
Proof.
  intros r. split; [apply init_invalid|].
  intros type t const Hbt Hdt. subst r.
  rewrite (init_valid dtype buffer_type data type t const c Hbt Hdt).
  pose proof (fresh_name_not_live (buffers c)) as Hfresh.
  pose proof (fresh_name_positive (buffers c)) as Hpos.
  destruct data as [value|].
  - match goal with
    | |- context [VertexBuffer.data_setter ?s _ ?k] =>
        set (self0 := s); set (c1 := k)
    end.
    destruct (ct.make_array t value) as [a|e] eqn:Ha.
    + destruct (data_setter_accepted self0 value a c1 Ha)
        as (c2 & Hset & Hissued & _ & _ & Hbufs).
      rewrite Hset. cbn [fst snd].
      exists [ GenBuffers 1 (fresh_name (buffers c));
               BindBuffer type (fresh_name (buffers c));
               BufferData type (ct.sizeof a) a gl.GL_STATIC_DRAW;
               BindBuffer type 0 ].
      split; [exact (issued_trans c c1 c2 [_] _ eq_refl Hissued)|].
      split; [reflexivity|]. split; [by rewrite Hbufs|].
      split; [done|]. split; [lia|]. split; [discriminate|].
      intros value0 [= <-]. split.
      * intros _. split; [reflexivity|]. eexists. by repeat split.
      * intros Hn. exfalso. apply convert_all_refuses in Hn as [e He].
        unfold ct.make_array in Ha. rewrite He in Ha. discriminate.
    + rewrite (data_setter_refused self0 value e c1 Ha). cbn [fst snd].
      exists [GenBuffers 1 (fresh_name (buffers c))].
      split; [reflexivity|]. split; [reflexivity|]. split; [reflexivity|].
      split; [done|]. split; [lia|]. split; [discriminate|].
      intros value0 [= <-]. split.
      * intros Hacc. exfalso.
        destruct (make_array_accepts t value Hacc) as (a & Ha' & _). congruence.
      * intros _. split; [reflexivity|]. by exists e.
  - cbn [fst snd]. exists [GenBuffers 1 (fresh_name (buffers c))].
    split; [reflexivity|]. split; [reflexivity|]. split; [reflexivity|].
    split; [done|]. split; [lia|]. split; [|discriminate].
    intros _. split; [reflexivity|]. eexists. by repeat split.
Qed.

Lemma init_allocates_after_lookups_witness :
  (∃ key,
     VertexBuffer.__init__ "int" None "data" sample_context
       = (Raise (KeyError key), sample_context)
     ∧ (key = "data" ∨ key = "int"))
  ∧ (∃ key,
       VertexBuffer.__init__ "float" None "index" sample_context
         = (Raise (KeyError key), sample_context)
       ∧ (key = "index" ∨ key = "float"))
  ∧ (count is_upload [GenBuffers 1 (fresh_name (buffers sample_context))] = 0%nat
     ∧ ∃ self,
         (VertexBuffer.__init__ "float" None "data" sample_context).1 = Ok self
         ∧ VertexBuffer.id self = fresh_name (buffers sample_context)
         ∧ VertexBuffer.data self = None).
Proof.
  split; [|split].
  - apply (proj1 (init_allocates_after_lookups "int" None "data" sample_context)).
    right. reflexivity.
  - apply (proj1 (init_allocates_after_lookups "float" None "index"
                    sample_context)).
    left. reflexivity.
  - destruct (proj2 (init_allocates_after_lookups "float" None "data"
                       sample_context)
                gl.GL_ARRAY_BUFFER gl.GLfloat gl.GL_FLOAT eq_refl eq_refl)
      as (new & Hissued & _ & _ & _ & _ & Hnone & _).
    destruct (Hnone eq_refl) as [_ Hself]. split; [reflexivity|exact Hself].
Defined.

(** ** Framebuffers *)

(** C1 (the constructor of [FrameBuffer]).  Whatever the status query
    would answer, "complete" included, the constructor raises
    [NameError] on its first statement and leaves the context as it
    was: no name is generated and the status is never queried.  The
    names [Gluint] and [pointer] it reads are bound neither by the
    module nor by the builtins; the sibling constructors read
    [gl.GLuint] and [ct.pointer]. *)
Theorem FrameBuffer_init_raises_NameError (c : context) :
  FrameBuffer.__init__ c = (Raise (NameError "Gluint"), c)
  ∧ ("Gluint" ∉ module_globals) ∧ ("Gluint" ∉ builtins)
  ∧ ("pointer" ∉ module_globals) ∧ ("pointer" ∉ builtins).
Proof.
  split; [reflexivity|].
  repeat split; apply (bool_decide_unpack _); vm_compute; exact I.
Qed.

(** X1 ([_check_completion_status]).  The check queries the status of
    [GL_FRAMEBUFFER_EXT] once; it returns when the answer is
    [GL_FRAMEBUFFER_COMPLETE_EXT] and otherwise raises [Exception]
    with the answer, in decimal, inside its message. *)
Theorem _check_completion_status_spec (c : context) :
  FrameBuffer._check_completion_status c
  = (if bool_decide (framebuffer_status c = gl.GL_FRAMEBUFFER_COMPLETE_EXT)
     then Ok tt
     else Raise (Exception ("ERR " +:+ pretty (framebuffer_status c)
                            +:+ ": FrameBuffer could not be created.")),
     record (CheckFramebufferStatusEXT gl.GL_FRAMEBUFFER_EXT) c).
Proof.
  unfold FrameBuffer._check_completion_status.
  rewrite (bind_ok _ _ c
             (record (CheckFramebufferStatusEXT gl.GL_FRAMEBUFFER_EXT) c)
             (framebuffer_status c)) by reflexivity.
  destruct (decide (framebuffer_status c = gl.GL_FRAMEBUFFER_COMPLETE_EXT))
    as [Heq|Hne].
  - rewrite (bool_decide_true _ Heq).
    rewrite bool_decide_false; [reflexivity | by intros Hne].
  - rewrite (bool_decide_false _ Hne).
    by rewrite bool_decide_true.
Qed.

(** C4 ([FrameBuffer.deactivate]).  Deactivating a framebuffer binds
    the framebuffer's own name, not 0, to [GL_FRAMEBUFFER_EXT]: it is
    the same computation as [activate]. *)
Theorem FrameBuffer_deactivate_rebinds_own_handle
  (self : FrameBuffer.t) (c : context) :
  ∃ c',
    FrameBuffer.deactivate self c = (Ok tt, c')
    ∧ slot c' gl.GL_FRAMEBUFFER_EXT = FrameBuffer.id self
    ∧ issued c c' [BindFramebufferEXT gl.GL_FRAMEBUFFER_EXT (FrameBuffer.id self)]
    ∧ FrameBuffer.deactivate self c = FrameBuffer.activate self c.
Proof.
  destruct self as [name], c as [bd bufs texs fbs store tp st cs].
  run. eexists. split; [reflexivity|]. lookups. done.
Qed.

(** ** Resetting the buffer slots *)

(** C8.  From any context, [deactivate_all] issues exactly two
    commands, binding 0 to [GL_ARRAY_BUFFER] and to
    [GL_ELEMENT_ARRAY_BUFFER], so both slots hold 0 afterwards whatever
    they held before. *)
Theorem deactivate_all_clears_both_slots (c : context) :
  ∃ c',
    VertexBuffer.deactivate_all c = (Ok tt, c')
    ∧ slot c' gl.GL_ARRAY_BUFFER = 0
    ∧ slot c' gl.GL_ELEMENT_ARRAY_BUFFER = 0
    ∧ issued c c'
        [ BindBuffer gl.GL_ARRAY_BUFFER 0;
          BindBuffer gl.GL_ELEMENT_ARRAY_BUFFER 0 ].
Proof.
  destruct c as [bd bufs texs fbs store tp st cs].
  run. eexists. split; [reflexivity|]. lookups.
  repeat split. by rewrite <- !app_assoc.
Qed.

(** ** Textures *)

(** C6.  From any context, whatever sampling parameters it holds, the
    setter of a texture's [data] returns and leaves the texture with
    wrap S and wrap T at [GL_CLAMP_TO_EDGE] and the min and mag filters
    at [GL_LINEAR]; the four [TexParameteri] commands are issued on
    every call, between the upload and the unbinding. *)
Theorem Texture_data_setter_sampling
  (self : Texture.t) (value : list Z) (c : context) :
  ∃ self' c',
    Texture.data_setter self value c = (Ok self', c')
    ∧ Texture.data self' = Some value
    ∧ Texture.id self' = Texture.id self
    ∧ sampling c' (Texture.id self) gl.GL_TEXTURE_WRAP_S = Some gl.GL_CLAMP_TO_EDGE
    ∧ sampling c' (Texture.id self) gl.GL_TEXTURE_WRAP_T = Some gl.GL_CLAMP_TO_EDGE
    ∧ sampling c' (Texture.id self) gl.GL_TEXTURE_MIN_FILTER = Some gl.GL_LINEAR
    ∧ sampling c' (Texture.id self) gl.GL_TEXTURE_MAG_FILTER = Some gl.GL_LINEAR
    ∧ slot c' gl.GL_TEXTURE_2D = 0
    ∧ issued c c'
        [ BindTexture gl.GL_TEXTURE_2D (Texture.id self);
          TexImage2D gl.GL_TEXTURE_2D 0 gl.GL_RGB (Texture.width self)
            (Texture.height self) 0 gl.GL_RGB gl.GL_UNSIGNED_BYTE value;
          TexParameteri gl.GL_TEXTURE_2D gl.GL_TEXTURE_WRAP_S gl.GL_CLAMP_TO_EDGE;
          TexParameteri gl.GL_TEXTURE_2D gl.GL_TEXTURE_WRAP_T gl.GL_CLAMP_TO_EDGE;
          TexParameteri gl.GL_TEXTURE_2D gl.GL_TEXTURE_MIN_FILTER gl.GL_LINEAR;
          TexParameteri gl.GL_TEXTURE_2D gl.GL_TEXTURE_MAG_FILTER gl.GL_LINEAR;
          BindTexture gl.GL_TEXTURE_2D 0 ].
Proof.
  destruct self as [name w h d], c as [bd bufs texs fbs store tp st cs].
  run. eexists _, _. split; [reflexivity|]. lookups.
  repeat split. by rewrite <- !app_assoc.
Qed.

(** ** The dummy framebuffer *)

(** C7, as stated, fails on [id]: the name belongs to the interface of
    [GLObject] and resolves on a [FrameBuffer], but reading it on a
    [DummyFrameBuffer] raises [AttributeError]. *)
Lemma DummyFrameBuffer_has_no_id :
  "id" ∈ resource_interface
  ∧ getattr class_DummyFrameBuffer "id"
    = Raise (AttributeError "DummyFrameBuffer" "id")
  ∧ getattr class_FrameBuffer "id" = Ok tt
  ∧ ¬ (∀ name, name ∈ resource_interface →
         getattr class_DummyFrameBuffer name = Ok tt).
Proof.
  assert (Hin : "id" ∈ resource_interface)
    by (apply (bool_decide_unpack _); vm_compute; exact I).
  split; [exact Hin|]. split; [reflexivity|]. split; [reflexivity|].
  intros H. specialize (H "id" Hin). discriminate.
Qed.

(** C7, amended.  [DummyFrameBuffer] derives from [object], not from
    [GLObject], and has no [id]; it defines [__init__], [activate],
    [deactivate], [attach_texture] and [delete], and each takes any
    positional and keyword arguments, returns [None] and leaves the
    context untouched. *)
Theorem DummyFrameBuffer_operations_are_noops :
  base class_DummyFrameBuffer = Some class_object
  ∧ getattr class_DummyFrameBuffer "id"
    = Raise (AttributeError "DummyFrameBuffer" "id")
  ∧ (∀ name,
       name ∈ ["__init__"; "activate"; "deactivate"; "attach_texture"; "delete"] →
       name ∈ namespace class_DummyFrameBuffer
       ∧ getattr class_DummyFrameBuffer name = Ok tt)
  ∧ (∀ (A B : Type) (self : DummyFrameBuffer.t) (args : list A)
       (kwargs : list (string * B)) (c : context),
       DummyFrameBuffer.__init__ args kwargs c = (Ok self, c)
       ∧ DummyFrameBuffer.activate self args kwargs c = (Ok tt, c)
       ∧ DummyFrameBuffer.deactivate self args kwargs c = (Ok tt, c)
       ∧ DummyFrameBuffer.attach_texture self args kwargs c = (Ok tt, c)
       ∧ DummyFrameBuffer.delete self args kwargs c = (Ok tt, c)).
Proof.
  split; [reflexivity|]. split; [reflexivity|]. split.
  - intros name Hname.
    rewrite !elem_of_cons, elem_of_nil in Hname.
    destruct Hname as [->|[->|[->|[->|[->|[]]]]]];
      (split; [apply (bool_decide_unpack _); vm_compute; exact I | reflexivity]).
  - intros A B [] args kwargs c. by repeat split.
Qed.

(** * Further properties *)

(** ** The context after the setter and after a draw *)

Lemma data_setter_context (self : VertexBuffer.t) (value : list pynum)
  (a : ct.array) (c : context) :
  ct.make_array (VertexBuffer._dtype self) value = Ok a →
  VertexBuffer.data_setter self value c
  = (Ok (VertexBuffer.set__data (Some value) self),
     {| bound := <[VertexBuffer._type self := 0]> (bound c);
        buffers := buffers c;
        textures := textures c;
        framebuffers := framebuffers c;
        buffer_store := <[VertexBuffer.id self := a]> (buffer_store c);
        tex_parameter := tex_parameter c;
        framebuffer_status := framebuffer_status c;
        calls := calls c ++
          [ BindBuffer (VertexBuffer._type self) (VertexBuffer.id self);
            BufferData (VertexBuffer._type self) (ct.sizeof a) a
              gl.GL_STATIC_DRAW;
            BindBuffer (VertexBuffer._type self) 0 ] |}).
Proof.
  intros Ha. unfold VertexBuffer.data_setter.
  rewrite (bind_ok _ _ c c a) by (unfold lift; by rewrite Ha).
  destruct self as [bt ty dtn dt dc d name],
    c as [bd bufs texs fbs store tp st cs].
  run. lookups. rewrite insert_insert_eq, <- !app_assoc. reflexivity.
Qed.

(** ** The data setter of a buffer, further *)

Lemma convert_refusal (t : ct.ctype) (v : pynum) (e : exn) :
  ct.convert t v = Raise e → e = refusal t.
Proof.
  destruct t, v; simpl; try discriminate.
  - destruct (Z.abs z <? 2 ^ 1024 - 2 ^ 970)%Z; [discriminate|]. by intros [= <-].
  - by intros [= <-].
Qed.

Lemma convert_all_refusal (t : ct.ctype) (value : list pynum) (e : exn) :
  ct.convert_all t value = Raise e → e = refusal t.
Proof.
  induction value as [|v value IH]; simpl; [discriminate|].
  destruct (ct.convert t v) as [x|e'] eqn:Hx.
  - destruct (ct.convert_all t value) as [cs|e'']; [discriminate|].
    intros [= <-]. by apply IH.
  - intros [= <-]. by apply (convert_refusal t v).
Qed.

(** X3.  A sequence with an element the buffer's element type refuses
    makes the setter raise before any command: the context is
    unchanged, and the error is [TypeError] for a uint32 buffer (the
    element is a float) and [OverflowError] for a float32 buffer (the
    element is an int beyond the range of a double). *)
Theorem data_setter_refusal
  (self : VertexBuffer.t) (value : list pynum) (c : context) :
  ¬ Forall (accepts (VertexBuffer._dtype self)) value →
  VertexBuffer.data_setter self value c
  = (Raise (refusal (VertexBuffer._dtype self)), c).
Proof.
  intros Hn. apply convert_all_refuses in Hn as [e He].
  apply data_setter_refused. unfold ct.make_array. rewrite He.
  by rewrite (convert_all_refusal _ _ _ He).
Qed.

Lemma data_setter_refusal_witness :
  VertexBuffer.data_setter sample_data_buffer [PyInt (2 ^ 1024)] sample_context
  = (Raise (OverflowError "int too large to convert to float"), sample_context).
Proof.
  apply (data_setter_refusal sample_data_buffer [PyInt (2 ^ 1024)]
           sample_context).
  intros H. apply Forall_cons in H as [H _]. simpl in H. lia.
Defined.

(** X4.  Setting the data twice keeps the second sequence only: [data]
    reads it back, the device copy of the buffer is its converted
    array, the name of the buffer is unchanged, and each call issued
    its own bind, upload, unbind. *)
Theorem data_setter_last_write_wins
  (self : VertexBuffer.t) (first second : list pynum) (c : context) :
  Forall (accepts (VertexBuffer._dtype self)) first →
  Forall (accepts (VertexBuffer._dtype self)) second →
  ∃ self1 c1 self2 c2 a1 a2,
    VertexBuffer.data_setter self first c = (Ok self1, c1)
    ∧ VertexBuffer.data_setter self1 second c1 = (Ok self2, c2)
    ∧ ct.make_array (VertexBuffer._dtype self) first = Ok a1
    ∧ ct.make_array (VertexBuffer._dtype self) second = Ok a2
    ∧ VertexBuffer.data self2 = Some second
    ∧ VertexBuffer.id self2 = VertexBuffer.id self
    ∧ buffer_store c2 !! VertexBuffer.id self = Some a2
    ∧ slot c2 (VertexBuffer._type self) = 0
    ∧ issued c c2
        [ BindBuffer (VertexBuffer._type self) (VertexBuffer.id self);
          BufferData (VertexBuffer._type self) (ct.sizeof a1) a1
            gl.GL_STATIC_DRAW;
          BindBuffer (VertexBuffer._type self) 0;
          BindBuffer (VertexBuffer._type self) (VertexBuffer.id self);
          BufferData (VertexBuffer._type self) (ct.sizeof a2) a2
            gl.GL_STATIC_DRAW;
          BindBuffer (VertexBuffer._type self) 0 ].
Proof.
  intros H1 H2.
  destruct (make_array_accepts _ first H1) as (a1 & Ha1 & _).
  destruct (make_array_accepts _ second H2) as (a2 & Ha2 & _).
  eexists _, _, _, _, a1, a2.
  split; [exact (data_setter_context self first a1 c Ha1)|].
  split; [apply data_setter_context; by destruct self|].
  destruct self as [bt ty dtn dt dc d name],
    c as [bd bufs texs fbs store tp st cs].
  unfold slot, issued. cbn.
  rewrite !lookup_insert_eq, <- app_assoc. by repeat split.
Qed.

Lemma data_setter_last_write_wins_witness :
  ∃ self1 c1 self2 c2 a1 a2,
    VertexBuffer.data_setter empty_index_buffer [PyInt 7] sample_context
      = (Ok self1, c1)
    ∧ VertexBuffer.data_setter self1 [PyInt 0; PyInt 1] c1 = (Ok self2, c2)
    ∧ ct.make_array gl.GLuint [PyInt 7] = Ok a1
    ∧ ct.make_array gl.GLuint [PyInt 0; PyInt 1] = Ok a2
    ∧ VertexBuffer.data self2 = Some [PyInt 0; PyInt 1]
    ∧ VertexBuffer.id self2 = 2
    ∧ buffer_store c2 !! 2 = Some a2
    ∧ slot c2 gl.GL_ELEMENT_ARRAY_BUFFER = 0
    ∧ issued sample_context c2
        [ BindBuffer gl.GL_ELEMENT_ARRAY_BUFFER 2;
          BufferData gl.GL_ELEMENT_ARRAY_BUFFER (ct.sizeof a1) a1
            gl.GL_STATIC_DRAW;
          BindBuffer gl.GL_ELEMENT_ARRAY_BUFFER 0;
          BindBuffer gl.GL_ELEMENT_ARRAY_BUFFER 2;
          BufferData gl.GL_ELEMENT_ARRAY_BUFFER (ct.sizeof a2) a2
            gl.GL_STATIC_DRAW;
          BindBuffer gl.GL_ELEMENT_ARRAY_BUFFER 0 ].
Proof.
  apply (data_setter_last_write_wins empty_index_buffer [PyInt 7]
           [PyInt 0; PyInt 1] sample_context);
    repeat constructor.
Defined.

(** X5.  The setter touches the bind slot of the buffer's own target
    and the device copy of the buffer itself, and nothing else: every
    other slot, every other buffer's device copy, the live names, the
    sampling parameters and the status answer are as before. *)
Theorem data_setter_frame
  (self : VertexBuffer.t) (value : list pynum) (c : context) :
  Forall (accepts (VertexBuffer._dtype self)) value →
  ∃ self' c',
    VertexBuffer.data_setter self value c = (Ok self', c')
    ∧ (∀ target, target ≠ VertexBuffer._type self →
         slot c' target = slot c target)
    ∧ (∀ name, name ≠ VertexBuffer.id self →
         buffer_store c' !! name = buffer_store c !! name)
    ∧ buffers c' = buffers c
    ∧ textures c' = textures c
    ∧ framebuffers c' = framebuffers c
    ∧ tex_parameter c' = tex_parameter c
    ∧ framebuffer_status c' = framebuffer_status c
    ∧ VertexBuffer.buffer_type self' = VertexBuffer.buffer_type self
    ∧ VertexBuffer._type self' = VertexBuffer._type self
    ∧ VertexBuffer.data_type self' = VertexBuffer.data_type self
    ∧ VertexBuffer._dtype self' = VertexBuffer._dtype self
    ∧ VertexBuffer._dtype_const self' = VertexBuffer._dtype_const self.
Proof.
  intros Hacc. destruct (make_array_accepts _ value Hacc) as (a & Ha & _).
  eexists _, _. split; [exact (data_setter_context self value a c Ha)|].
  unfold slot. cbn. split; [|split].
  - intros target Hne. by rewrite lookup_insert_ne.
  - intros name Hne. by rewrite lookup_insert_ne.
  - by destruct self.
Qed.

Lemma data_setter_frame_witness :
  ∃ self' c',
    VertexBuffer.data_setter sample_data_buffer [one_and_a_half] sample_context
      = (Ok self', c')
    ∧ (∀ target, target ≠ gl.GL_ARRAY_BUFFER →
         slot c' target = slot sample_context target)
    ∧ (∀ name, name ≠ 1 →
         buffer_store c' !! name = buffer_store sample_context !! name)
    ∧ buffers c' = []
    ∧ textures c' = []
    ∧ framebuffers c' = []
    ∧ tex_parameter c' = ∅
    ∧ framebuffer_status c' = gl.GL_FRAMEBUFFER_COMPLETE_EXT
    ∧ VertexBuffer.buffer_type self' = "data"
    ∧ VertexBuffer._type self' = gl.GL_ARRAY_BUFFER
    ∧ VertexBuffer.data_type self' = "float"
    ∧ VertexBuffer._dtype self' = gl.GLfloat
    ∧ VertexBuffer._dtype_const self' = gl.GL_FLOAT.
Proof.
  apply (data_setter_frame sample_data_buffer [one_and_a_half] sample_context).
  repeat constructor.
Defined.

(** X6.  The setter does not restore what was bound: when a buffer was
    activated and the data of another buffer of the same kind is set,
    the slot holds 0 afterwards, so the first buffer is no longer
    bound. *)
Theorem data_setter_unbinds_active_buffer
  (active other : VertexBuffer.t) (value : list pynum) (c : context) :
  VertexBuffer._type active = VertexBuffer._type other →
  Forall (accepts (VertexBuffer._dtype other)) value →
  ∃ c1 other' c2,
    VertexBuffer.activate active c = (Ok tt, c1)
    ∧ slot c1 (VertexBuffer._type active) = VertexBuffer.id active
    ∧ VertexBuffer.data_setter other value c1 = (Ok other', c2)
    ∧ slot c2 (VertexBuffer._type active) = 0.
Proof.
  intros Hty Hacc. destruct (make_array_accepts _ value Hacc) as (a & Ha & _).
  destruct (VertexBuffer_activate_run active c) as (c1 & Hact & Hslot & _).
  exists c1. eexists _, _. split; [done|]. split; [done|].
  split; [exact (data_setter_context other value a c1 Ha)|].
  unfold slot. cbn. by rewrite Hty, lookup_insert_eq.
Qed.

Lemma data_setter_unbinds_active_buffer_witness :
  ∃ c1 other' c2,
    VertexBuffer.activate sample_index_buffer sample_context = (Ok tt, c1)
    ∧ slot c1 gl.GL_ELEMENT_ARRAY_BUFFER = 2
    ∧ VertexBuffer.data_setter
        (VertexBuffer.set__data None
           {| VertexBuffer.buffer_type := "elem";
              VertexBuffer._type := gl.GL_ELEMENT_ARRAY_BUFFER;
              VertexBuffer.data_type := "uint";
              VertexBuffer._dtype := gl.GLuint;
              VertexBuffer._dtype_const := gl.GL_UNSIGNED_INT;
              VertexBuffer._data := None;
              VertexBuffer._id := 5 |}) [PyInt 9] c1 = (Ok other', c2)
    ∧ slot c2 gl.GL_ELEMENT_ARRAY_BUFFER = 0.
Proof.
  apply (data_setter_unbinds_active_buffer sample_index_buffer _ [PyInt 9]
           sample_context).
  - reflexivity.
  - repeat constructor.
Defined.

Lemma convert_all_ints (zs : list Z) :
  ct.convert_all ct.c_uint (PyInt <$> zs)
  = Ok ((λ z, ct.uint32 (z mod 2 ^ 32)) <$> zs).
Proof.
  induction zs as [|z zs IH]; [done|].
  cbn [fmap list_fmap ct.convert_all ct.convert]. fold (fmap PyInt zs).
  by rewrite IH.
Qed.

(** X7.  A uint32 buffer given ints stores them on the device reduced
    modulo 2^32, four bytes each, while [data] reads back the ints as
    given: outside [0, 2^32) the host copy and the device copy
    differ. *)
Theorem data_setter_uint_wraps
  (self : VertexBuffer.t) (zs : list Z) (c : context) :
  VertexBuffer._dtype self = gl.GLuint →
  ∃ self' c',
    VertexBuffer.data_setter self (PyInt <$> zs) c = (Ok self', c')
    ∧ VertexBuffer.data self' = Some (PyInt <$> zs)
    ∧ buffer_store c' !! VertexBuffer.id self
      = Some {| ct.elem_type := ct.c_uint;
                ct.elems := (λ z, ct.uint32 (z mod 2 ^ 32)) <$> zs |}
    ∧ ∃ a, issued c c'
        [ BindBuffer (VertexBuffer._type self) (VertexBuffer.id self);
          BufferData (VertexBuffer._type self) (4 * Z.of_nat (length zs)) a
            gl.GL_STATIC_DRAW;
          BindBuffer (VertexBuffer._type self) 0 ].
Proof.
  intros Hdt.
  assert (Ha : ct.make_array (VertexBuffer._dtype self) (PyInt <$> zs)
               = Ok {| ct.elem_type := ct.c_uint;
                       ct.elems := (λ z, ct.uint32 (z mod 2 ^ 32)) <$> zs |}).
  { rewrite Hdt. unfold ct.make_array, gl.GLuint.
    by rewrite convert_all_ints. }
  eexists _, _. split; [exact (data_setter_context self _ _ c Ha)|].
  cbn. rewrite lookup_insert_eq.
  split; [by destruct self|]. split; [done|].
  eexists. unfold issued, ct.sizeof. cbn. by rewrite length_fmap.
Qed.

Lemma data_setter_uint_wraps_witness :
  ∃ self' c',
    VertexBuffer.data_setter empty_index_buffer (PyInt <$> [-1; 2 ^ 32 + 5])
      sample_context = (Ok self', c')
    ∧ VertexBuffer.data self' = Some (PyInt <$> [-1; 2 ^ 32 + 5])
    ∧ buffer_store c' !! 2
      = Some {| ct.elem_type := ct.c_uint;
                ct.elems :=
                  (λ z, ct.uint32 (z mod 2 ^ 32)) <$> [-1; 2 ^ 32 + 5] |}
    ∧ ∃ a, issued sample_context c'
        [ BindBuffer gl.GL_ELEMENT_ARRAY_BUFFER 2;
          BufferData gl.GL_ELEMENT_ARRAY_BUFFER 8 a gl.GL_STATIC_DRAW;
          BindBuffer gl.GL_ELEMENT_ARRAY_BUFFER 0 ].
Proof.
  apply (data_setter_uint_wraps empty_index_buffer [-1; 2 ^ 32 + 5]
           sample_context).
  reflexivity.
Defined.

(** ** The constructor of a buffer, further *)

Lemma init_buffers (dtype buffer_type : string) (data : option (list pynum))
  (c c' : context) (self : VertexBuffer.t) :
  VertexBuffer.__init__ dtype data buffer_type c = (Ok self, c') →
  buffers c' = fresh_name (buffers c) :: buffers c
  ∧ VertexBuffer.id self = fresh_name (buffers c).
Proof.
  intros Hrun.
  destruct (init_invariant _ _ _ _ _ _ Hrun) as (_ & _ & _ & _ & Hid).
  split; [|done].
  destruct (_buffer_type_map !! buffer_type) as [type|] eqn:Hbt;
    [|destruct (init_invalid dtype buffer_type data c) as (k & Hk & _);
      [by left | congruence]].
  destruct (_dtype_map !! dtype) as [[t const]|] eqn:Hdt;
    [|destruct (init_invalid dtype buffer_type data c) as (k & Hk & _);
      [by right | congruence]].
  rewrite (init_valid _ _ _ _ _ _ _ Hbt Hdt) in Hrun.
  destruct data as [value|]; [|by injection Hrun as _ <-].
  match type of Hrun with
  | VertexBuffer.data_setter ?s _ ?k = _ =>
      set (self0 := s) in *; set (c1 := k) in *
  end.
  destruct (ct.make_array t value) as [a|e] eqn:Ha.
  - destruct (data_setter_accepted self0 value a c1 Ha)
      as (c2 & Hset & _ & _ & _ & Hbufs).
    rewrite Hset in Hrun. injection Hrun as _ <-. by rewrite Hbufs.
  - rewrite (data_setter_refused self0 value e c1 Ha) in Hrun. discriminate.
Qed.

(** X8.  An object the constructor returns has its fields in step: the
    kind and element type are the ones asked for, the bind target is
    [GL_ARRAY_BUFFER] for ['data'] and [GL_ELEMENT_ARRAY_BUFFER] for
    ['elem'], the element enumerant is [GL_FLOAT] for ['float'] and
    [GL_UNSIGNED_INT] for ['uint'], [data] reads back the initial data
    (or [None]), and the name is a fresh, non-zero, now live buffer
    name. *)
Theorem init_returns_consistent_object
  (dtype buffer_type : string) (data : option (list pynum))
  (c c' : context) (self : VertexBuffer.t) :
  VertexBuffer.__init__ dtype data buffer_type c = (Ok self, c') →
  VertexBuffer.buffer_type self = buffer_type
  ∧ VertexBuffer.data_type self = dtype
  ∧ ((buffer_type = "data" ∧ VertexBuffer._type self = gl.GL_ARRAY_BUFFER)
     ∨ (buffer_type = "elem"
        ∧ VertexBuffer._type self = gl.GL_ELEMENT_ARRAY_BUFFER))
  ∧ ((dtype = "float" ∧ VertexBuffer._dtype self = gl.GLfloat
      ∧ VertexBuffer._dtype_const self = gl.GL_FLOAT)
     ∨ (dtype = "uint" ∧ VertexBuffer._dtype self = gl.GLuint
        ∧ VertexBuffer._dtype_const self = gl.GL_UNSIGNED_INT))
  ∧ VertexBuffer.data self = data
  ∧ VertexBuffer.id self ≠ 0
  ∧ (VertexBuffer.id self ∉ buffers c)
  ∧ (VertexBuffer.id self ∈ buffers c').
Proof.
  intros Hrun.
  destruct (init_invariant _ _ _ _ _ _ Hrun)
    as ([Hty Hdt] & Hbt & Hdn & Hd & Hid).
  destruct (init_buffers _ _ _ _ _ _ Hrun) as [Hbufs _].
  split; [done|]. split; [done|]. rewrite Hbt in Hty. rewrite Hdn in Hdt.
  split; [by apply _buffer_type_map_Some in Hty|]. split.
  { apply _dtype_map_Some in Hdt as [[-> [= -> ->]]|[-> [= -> ->]]];
      [by left | by right]. }
  split; [done|]. rewrite Hid, Hbufs.
  pose proof (fresh_name_positive (buffers c)).
  split; [lia|]. split; [apply fresh_name_not_live | apply elem_of_cons; by left].
Qed.

Lemma init_returns_consistent_object_witness :
  let self :=
    {| VertexBuffer.buffer_type := "data";
       VertexBuffer._type := gl.GL_ARRAY_BUFFER;
       VertexBuffer.data_type := "float";
       VertexBuffer._dtype := gl.GLfloat;
       VertexBuffer._dtype_const := gl.GL_FLOAT;
       VertexBuffer._data := None;
       VertexBuffer._id := 1 |} in
  let c' := record (GenBuffers 1 1) (set_buffers [1] sample_context) in
  VertexBuffer.buffer_type self = "data"
  ∧ VertexBuffer.data_type self = "float"
  ∧ (("data" = "data" ∧ VertexBuffer._type self = gl.GL_ARRAY_BUFFER)
     ∨ ("data" = "elem"
        ∧ VertexBuffer._type self = gl.GL_ELEMENT_ARRAY_BUFFER))
  ∧ (("float" = "float" ∧ VertexBuffer._dtype self = gl.GLfloat
      ∧ VertexBuffer._dtype_const self = gl.GL_FLOAT)
     ∨ ("float" = "uint" ∧ VertexBuffer._dtype self = gl.GLuint
        ∧ VertexBuffer._dtype_const self = gl.GL_UNSIGNED_INT))
  ∧ VertexBuffer.data self = None
  ∧ VertexBuffer.id self ≠ 0
  ∧ (VertexBuffer.id self ∉ buffers sample_context)
  ∧ (VertexBuffer.id self ∈ buffers c').
Proof.
  intros self c'.
  apply (init_returns_consistent_object "float" "data" None sample_context c'
           self).
  reflexivity.
Defined.

(** X9.  Two buffers constructed one after the other get different
    names, and both names are live afterwards. *)
Theorem init_twice_distinct_names
  (dtype1 buffer_type1 dtype2 buffer_type2 : string)
  (data1 data2 : option (list pynum)) (c c1 c2 : context)
  (first second : VertexBuffer.t) :
  VertexBuffer.__init__ dtype1 data1 buffer_type1 c = (Ok first, c1) →
  VertexBuffer.__init__ dtype2 data2 buffer_type2 c1 = (Ok second, c2) →
  VertexBuffer.id first ≠ VertexBuffer.id second
  ∧ (VertexBuffer.id first ∈ buffers c2)
  ∧ (VertexBuffer.id second ∈ buffers c2).
Proof.
  intros H1 H2.
  destruct (init_buffers _ _ _ _ _ _ H1) as [Hb1 Hid1].
  destruct (init_buffers _ _ _ _ _ _ H2) as [Hb2 Hid2].
  assert (Hin : VertexBuffer.id first ∈ buffers c1)
    by (rewrite Hb1, Hid1; apply elem_of_cons; by left).
  split; [|split].
  - intros Heq. apply (fresh_name_not_live (buffers c1)).
    by rewrite <- Hid2, <- Heq.
  - rewrite Hb2. apply elem_of_cons. by right.
  - rewrite Hb2, Hid2. apply elem_of_cons. by left.
Qed.

Lemma init_twice_distinct_names_witness :
  let first :=
    {| VertexBuffer.buffer_type := "data";
       VertexBuffer._type := gl.GL_ARRAY_BUFFER;
       VertexBuffer.data_type := "float";
       VertexBuffer._dtype := gl.GLfloat;
       VertexBuffer._dtype_const := gl.GL_FLOAT;
       VertexBuffer._data := None;
       VertexBuffer._id := 1 |} in
  let second :=
    {| VertexBuffer.buffer_type := "elem";
       VertexBuffer._type := gl.GL_ELEMENT_ARRAY_BUFFER;
       VertexBuffer.data_type := "uint";
       VertexBuffer._dtype := gl.GLuint;
       VertexBuffer._dtype_const := gl.GL_UNSIGNED_INT;
       VertexBuffer._data := None;
       VertexBuffer._id := 2 |} in
  let c1 := record (GenBuffers 1 1) (set_buffers [1] sample_context) in
  let c2 := record (GenBuffers 1 2) (set_buffers [2; 1] c1) in
  VertexBuffer.id first ≠ VertexBuffer.id second
  ∧ (VertexBuffer.id first ∈ buffers c2)
  ∧ (VertexBuffer.id second ∈ buffers c2).
Proof.
  intros first second c1 c2.
  apply (init_twice_distinct_names "float" "data" "uint" "elem" None None
           sample_context c1 c2 first second); reflexivity.
Defined.

(** ** Drawing, further *)

Lemma draw_elem_no_data (self : VertexBuffer.t) (mode : string) (m : Z)
  (c : context) :
  VertexBuffer.buffer_type self = "elem" →
  VertexBuffer.data self = None →
  _mode_map !! mode = Some m →
  VertexBuffer.draw self mode c
  = (Raise (TypeError "object of type 'NoneType' has no len()"),
     record (BindBuffer (VertexBuffer._type self) (VertexBuffer.id self))
       (set_bound (<[VertexBuffer._type self := VertexBuffer.id self]> (bound c))
          c)).
Proof.
  intros Hbt Hd Hm. unfold VertexBuffer.draw.
  rewrite (bind_ok _ _ c c m) by by apply getitem_Some.
  rewrite Hbt. change (String.eqb "elem" "elem") with true. cbv iota.
  destruct self as [bt ty dtn dt dc d name],
    c as [bd bufs texs fbs store tp st cs].
  cbv [VertexBuffer.data VertexBuffer._data] in Hd. subst d.
  reflexivity.
Qed.

(** X10.  Drawing an index buffer that holds no data yet (constructed
    without initial data) raises [TypeError] from [len(None)] once the
    buffer is bound: no draw is issued, and the element slot still
    holds the buffer's name when the error propagates. *)
Theorem draw_index_buffer_without_data
  (self : VertexBuffer.t) (mode : string) (c : context) :
  VertexBuffer.invariant self →
  VertexBuffer.buffer_type self = "elem" →
  VertexBuffer.data self = None →
  is_Some (_mode_map !! mode) →
  ∃ c',
    VertexBuffer.draw self mode c
      = (Raise (TypeError "object of type 'NoneType' has no len()"), c')
    ∧ issued c c' [BindBuffer gl.GL_ELEMENT_ARRAY_BUFFER (VertexBuffer.id self)]
    ∧ slot c' gl.GL_ELEMENT_ARRAY_BUFFER = VertexBuffer.id self.
Proof.
  intros Hinv Hbt Hd [m Hm].
  eexists. split; [exact (draw_elem_no_data self mode m c Hbt Hd Hm)|].
  rewrite (invariant_index_buffer self Hinv Hbt).
  unfold issued, slot. cbn. by rewrite lookup_insert_eq.
Qed.

Lemma draw_index_buffer_without_data_witness :
  ∃ c',
    VertexBuffer.draw empty_index_buffer "LINE_LOOP" sample_context
      = (Raise (TypeError "object of type 'NoneType' has no len()"), c')
    ∧ issued sample_context c' [BindBuffer gl.GL_ELEMENT_ARRAY_BUFFER 2]
    ∧ slot c' gl.GL_ELEMENT_ARRAY_BUFFER = 2.
Proof.
  apply (draw_index_buffer_without_data empty_index_buffer "LINE_LOOP"
           sample_context).
  - by split.
  - reflexivity.
  - reflexivity.
  - exists gl.GL_LINE_LOOP. reflexivity.
Defined.

Lemma draw_ok_inv (self : VertexBuffer.t) (mode : string) (c c' : context) :
  VertexBuffer.draw self mode c = (Ok tt, c') →
  is_Some (_mode_map !! mode)
  ∧ VertexBuffer.buffer_type self = "elem"
  ∧ is_Some (VertexBuffer.data self).
Proof.
  intros Hrun.
  destruct (_mode_map !! mode) as [m|] eqn:Hm;
    [|rewrite (draw_bad_mode self mode c Hm) in Hrun; discriminate].
  split; [by eexists|].
  destruct (decide (VertexBuffer.buffer_type self = "elem")) as [Hbt|Hbt].
  - split; [done|].
    destruct (VertexBuffer.data self) as [value|] eqn:Hd; [by eexists|].
    rewrite (draw_elem_no_data self mode m c Hbt Hd Hm) in Hrun.
    discriminate.
  - destruct (draw_not_elem self mode m c Hbt Hm) as (c1 & Hraise & _).
    rewrite Hraise in Hrun. discriminate.
Qed.

(** X11.  [draw] returns normally exactly when the mode is one of the
    five keys of [_mode_map], the buffer is an index buffer and it
    holds data; in every other case it raises. *)
Theorem draw_returns_iff
  (self : VertexBuffer.t) (mode : string) (c : context) :
  (∃ c', VertexBuffer.draw self mode c = (Ok tt, c'))
  ↔ is_Some (_mode_map !! mode)
    ∧ VertexBuffer.buffer_type self = "elem"
    ∧ is_Some (VertexBuffer.data self).
Proof.
  split.
  - intros [c' Hrun]. by apply (draw_ok_inv self mode c c').
  - intros ([m Hm] & Hbt & [value Hd]).
    destruct (draw_elem self mode m value c Hbt Hd Hm) as (c' & Hrun & _).
    by exists c'.
Qed.

(** X12.  A draw that returns changes nothing but the element slot
    (set to 0) and the trace: every other slot, the live names, the
    device copies and the sampling parameters are as before. *)
Theorem draw_frame
  (self : VertexBuffer.t) (mode : string) (c c' : context) :
  VertexBuffer.draw self mode c = (Ok tt, c') →
  bound c' = <[VertexBuffer._type self := 0]> (bound c)
  ∧ (∀ target, target ≠ VertexBuffer._type self →
       slot c' target = slot c target)
  ∧ buffers c' = buffers c
  ∧ textures c' = textures c
  ∧ framebuffers c' = framebuffers c
  ∧ buffer_store c' = buffer_store c
  ∧ tex_parameter c' = tex_parameter c
  ∧ framebuffer_status c' = framebuffer_status c.
Proof.
  intros Hrun.
  destruct (draw_ok_inv self mode c c' Hrun) as ([m Hm] & Hbt & [value Hd]).
  revert Hrun. unfold VertexBuffer.draw.
  rewrite (bind_ok _ _ c c m) by by apply getitem_Some.
  rewrite Hbt. change (String.eqb "elem" "elem") with true. cbv iota.
  destruct self as [bt ty dtn dt dc d name],
    c as [bd bufs texs fbs store tp st cs].
  cbv [VertexBuffer.data VertexBuffer._data] in Hd. subst d.
  run. intros [= <-]. cbn.
  rewrite insert_insert_eq. unfold slot. cbn.
  split; [done|]. split; [|done].
  intros target Hne. by rewrite lookup_insert_ne.
Qed.

Lemma draw_frame_witness :
  let c' := (VertexBuffer.draw sample_index_buffer "TRIANGLES" sample_context).2 in
  bound c' = <[gl.GL_ELEMENT_ARRAY_BUFFER := 0]> (bound sample_context)
  ∧ (∀ target, target ≠ gl.GL_ELEMENT_ARRAY_BUFFER →
       slot c' target = slot sample_context target)
  ∧ buffers c' = buffers sample_context
  ∧ textures c' = textures sample_context
  ∧ framebuffers c' = framebuffers sample_context
  ∧ buffer_store c' = buffer_store sample_context
  ∧ tex_parameter c' = tex_parameter sample_context
  ∧ framebuffer_status c' = framebuffer_status sample_context.
Proof.
  intros c'.
  apply (draw_frame sample_index_buffer "TRIANGLES" sample_context c').
  reflexivity.
Defined.

(** ** Textures, further *)

(** X13.  Constructing a texture generates one fresh, non-zero texture
    name and binds nothing; the object holds the width and height given
    and no data.  Setting its data then uploads with exactly that width
    and height, and the object keeps them. *)
Theorem Texture_init_then_data
  (width height : Z) (value : list Z) (c : context) :
  ∃ self c1 self' c2,
    Texture.__init__ width height c = (Ok self, c1)
    ∧ Texture.id self = fresh_name (textures c)
    ∧ Texture.id self ≠ 0
    ∧ (Texture.id self ∉ textures c)
    ∧ textures c1 = Texture.id self :: textures c
    ∧ bound c1 = bound c
    ∧ Texture.data self = None
    ∧ Texture.data_setter self value c1 = (Ok self', c2)
    ∧ Texture.width self' = width
    ∧ Texture.height self' = height
    ∧ Texture.data self' = Some value
    ∧ textures c2 = textures c1
    ∧ issued c c2
        [ GenTextures 1 (Texture.id self);
          BindTexture gl.GL_TEXTURE_2D (Texture.id self);
          TexImage2D gl.GL_TEXTURE_2D 0 gl.GL_RGB width height 0 gl.GL_RGB
            gl.GL_UNSIGNED_BYTE value;
          TexParameteri gl.GL_TEXTURE_2D gl.GL_TEXTURE_WRAP_S gl.GL_CLAMP_TO_EDGE;
          TexParameteri gl.GL_TEXTURE_2D gl.GL_TEXTURE_WRAP_T gl.GL_CLAMP_TO_EDGE;
          TexParameteri gl.GL_TEXTURE_2D gl.GL_TEXTURE_MIN_FILTER gl.GL_LINEAR;
          TexParameteri gl.GL_TEXTURE_2D gl.GL_TEXTURE_MAG_FILTER gl.GL_LINEAR;
          BindTexture gl.GL_TEXTURE_2D 0 ].
Proof.
  pose proof (fresh_name_positive (textures c)) as Hpos.
  pose proof (fresh_name_not_live (textures c)) as Hfresh.
  destruct c as [bd bufs texs fbs store tp st cs].
  cbn [textures] in Hpos, Hfresh.
  run. eexists _, _, _, _. split; [reflexivity|]. cbv beta iota.
  split; [reflexivity|]. split; [lia|]. split; [done|].
  do 3 (split; [reflexivity|]). split; [reflexivity|]. cbv beta iota.
  do 4 (split; [reflexivity|]). by rewrite <- !app_assoc.
Qed.

(** X14.  Setting the data of a texture twice keeps the second pixel
    buffer, the same name, width and height; both uploads are issued
    with that width and height, no texture name is generated, and
    every bind slot other than [GL_TEXTURE_2D] is as before. *)
Theorem Texture_data_setter_twice
  (self : Texture.t) (first second : list Z) (c : context) :
  ∃ self1 c1 self2 c2,
    Texture.data_setter self first c = (Ok self1, c1)
    ∧ Texture.data_setter self1 second c1 = (Ok self2, c2)
    ∧ Texture.data self2 = Some second
    ∧ Texture.id self2 = Texture.id self
    ∧ Texture.width self2 = Texture.width self
    ∧ Texture.height self2 = Texture.height self
    ∧ textures c2 = textures c
    ∧ buffers c2 = buffers c
    ∧ buffer_store c2 = buffer_store c
    ∧ slot c2 gl.GL_TEXTURE_2D = 0
    ∧ (∀ target, target ≠ gl.GL_TEXTURE_2D → slot c2 target = slot c target)
    ∧ issued c c2
        [ BindTexture gl.GL_TEXTURE_2D (Texture.id self);
          TexImage2D gl.GL_TEXTURE_2D 0 gl.GL_RGB (Texture.width self)
            (Texture.height self) 0 gl.GL_RGB gl.GL_UNSIGNED_BYTE first;
          TexParameteri gl.GL_TEXTURE_2D gl.GL_TEXTURE_WRAP_S gl.GL_CLAMP_TO_EDGE;
          TexParameteri gl.GL_TEXTURE_2D gl.GL_TEXTURE_WRAP_T gl.GL_CLAMP_TO_EDGE;
          TexParameteri gl.GL_TEXTURE_2D gl.GL_TEXTURE_MIN_FILTER gl.GL_LINEAR;
          TexParameteri gl.GL_TEXTURE_2D gl.GL_TEXTURE_MAG_FILTER gl.GL_LINEAR;
          BindTexture gl.GL_TEXTURE_2D 0;
          BindTexture gl.GL_TEXTURE_2D (Texture.id self);
          TexImage2D gl.GL_TEXTURE_2D 0 gl.GL_RGB (Texture.width self)
            (Texture.height self) 0 gl.GL_RGB gl.GL_UNSIGNED_BYTE second;
          TexParameteri gl.GL_TEXTURE_2D gl.GL_TEXTURE_WRAP_S gl.GL_CLAMP_TO_EDGE;
          TexParameteri gl.GL_TEXTURE_2D gl.GL_TEXTURE_WRAP_T gl.GL_CLAMP_TO_EDGE;
          TexParameteri gl.GL_TEXTURE_2D gl.GL_TEXTURE_MIN_FILTER gl.GL_LINEAR;
          TexParameteri gl.GL_TEXTURE_2D gl.GL_TEXTURE_MAG_FILTER gl.GL_LINEAR;
          BindTexture gl.GL_TEXTURE_2D 0 ].
Proof.
  destruct self as [name w h d], c as [bd bufs texs fbs store tp st cs].
  run. eexists _, _, _, _. split; [reflexivity|]. cbv beta iota.
  split; [reflexivity|]. cbv beta iota.
  do 7 (split; [reflexivity|]).
  split; [by lookups|]. split.
  - intros target Hne. by rewrite !lookup_insert_ne.
  - by rewrite <- !app_assoc.
Qed.


(** ** Attaching a texture to a framebuffer *)

Lemma attachments_app (trace new : list call) :
  attachments (trace ++ new)
  = (foldl replay_attachment (foldl replay_attachment (0, ∅) trace) new).2.
Proof. unfold attachments. by rewrite foldl_app. Qed.

Lemma replay_attach (st : Z * gmap (Z * Z) Z) (fb attachment textarget tex level : Z) :
  foldl replay_attachment st
    [ BindFramebufferEXT gl.GL_FRAMEBUFFER_EXT fb;
      FramebufferTexture2DEXT gl.GL_FRAMEBUFFER_EXT attachment textarget tex
        level;
      BindFramebufferEXT gl.GL_FRAMEBUFFER_EXT fb ]
  = (fb, <[(fb, attachment) := tex]> st.2).
Proof. reflexivity. Qed.

Lemma attach_texture_context (self : FrameBuffer.t) (texture : Texture.t)
  (c : context) :
  FrameBuffer.attach_texture self texture c
  = (Ok tt,
     {| bound := <[gl.GL_FRAMEBUFFER_EXT := FrameBuffer.id self]> (bound c);
        buffers := buffers c;
        textures := textures c;
        framebuffers := framebuffers c;
        buffer_store := buffer_store c;
        tex_parameter := tex_parameter c;
        framebuffer_status := framebuffer_status c;
        calls := calls c ++
          [ BindFramebufferEXT gl.GL_FRAMEBUFFER_EXT (FrameBuffer.id self);
            FramebufferTexture2DEXT gl.GL_FRAMEBUFFER_EXT
              gl.GL_COLOR_ATTACHMENT0_EXT gl.GL_TEXTURE_2D
              (Texture.id texture) 0;
            BindFramebufferEXT gl.GL_FRAMEBUFFER_EXT (FrameBuffer.id self) ] |}).
Proof.
  destruct self as [name], texture as [tex w h d],
    c as [bd bufs texs fbs store tp st cs].
  run. rewrite insert_insert_eq, <- !app_assoc. reflexivity.
Qed.

(** X15.  [attach_texture] binds the framebuffer, attaches the
    texture's name as color attachment 0 of [GL_TEXTURE_2D] at level 0,
    and binds the framebuffer again: the framebuffer is left bound, the
    texture slot and every other slot are untouched, and a driver that
    follows the trace holds the texture as the framebuffer's color
    attachment 0. *)
Theorem attach_texture_attaches_and_stays_bound
  (self : FrameBuffer.t) (texture : Texture.t) (c : context) :
  ∃ c',
    FrameBuffer.attach_texture self texture c = (Ok tt, c')
    ∧ issued c c'
        [ BindFramebufferEXT gl.GL_FRAMEBUFFER_EXT (FrameBuffer.id self);
          FramebufferTexture2DEXT gl.GL_FRAMEBUFFER_EXT
            gl.GL_COLOR_ATTACHMENT0_EXT gl.GL_TEXTURE_2D (Texture.id texture) 0;
          BindFramebufferEXT gl.GL_FRAMEBUFFER_EXT (FrameBuffer.id self) ]
    ∧ slot c' gl.GL_FRAMEBUFFER_EXT = FrameBuffer.id self
    ∧ (∀ target, target ≠ gl.GL_FRAMEBUFFER_EXT →
         slot c' target = slot c target)
    ∧ attachments (calls c')
        !! (FrameBuffer.id self, gl.GL_COLOR_ATTACHMENT0_EXT)
      = Some (Texture.id texture).
Proof.
  eexists. split; [apply attach_texture_context|].
  unfold issued, slot. cbn [calls bound].
  split; [done|]. split; [by rewrite lookup_insert_eq|]. split.
  - intros target Hne. by rewrite lookup_insert_ne.
  - rewrite attachments_app, replay_attach. cbn [snd].
    apply lookup_insert_eq.
Qed.

(** X16.  Attaching a second texture to the same framebuffer replaces
    the first: after the two calls a driver that follows the trace
    holds the second texture's name as color attachment 0. *)
Theorem attach_texture_twice_keeps_second
  (self : FrameBuffer.t) (first second : Texture.t) (c : context) :
  ∃ c1 c2,
    FrameBuffer.attach_texture self first c = (Ok tt, c1)
    ∧ FrameBuffer.attach_texture self second c1 = (Ok tt, c2)
    ∧ attachments (calls c1)
        !! (FrameBuffer.id self, gl.GL_COLOR_ATTACHMENT0_EXT)
      = Some (Texture.id first)
    ∧ attachments (calls c2)
        !! (FrameBuffer.id self, gl.GL_COLOR_ATTACHMENT0_EXT)
      = Some (Texture.id second).
Proof.
  eexists _, _. split; [apply attach_texture_context|].
  split; [apply attach_texture_context|]. cbn [calls]. split.
  - rewrite attachments_app, replay_attach. apply lookup_insert_eq.
  - rewrite !attachments_app, !foldl_app, !replay_attach.
    apply lookup_insert_eq.
Qed.

(** ** Activation *)

(** X17.  Activating a resource binds its name to its slot whatever
    was bound there, touches no other slot, and is idempotent on the
    bindings: a second activation leaves the bind slots as the first
    did.  This holds for buffers, textures and framebuffers alike. *)
Theorem activate_binds_own_name :
  (∀ (self : VertexBuffer.t) (c : context),
     ∃ c1 c2,
       VertexBuffer.activate self c = (Ok tt, c1)
       ∧ slot c1 (VertexBuffer._type self) = VertexBuffer.id self
       ∧ (∀ target, target ≠ VertexBuffer._type self →
            slot c1 target = slot c target)
       ∧ VertexBuffer.activate self c1 = (Ok tt, c2)
       ∧ bound c2 = bound c1)
  ∧ (∀ (self : Texture.t) (c : context),
       ∃ c1 c2,
         Texture.activate self c = (Ok tt, c1)
         ∧ slot c1 gl.GL_TEXTURE_2D = Texture.id self
         ∧ (∀ target, target ≠ gl.GL_TEXTURE_2D →
              slot c1 target = slot c target)
         ∧ Texture.activate self c1 = (Ok tt, c2)
         ∧ bound c2 = bound c1)
  ∧ (∀ (self : FrameBuffer.t) (c : context),
       ∃ c1 c2,
         FrameBuffer.activate self c = (Ok tt, c1)
         ∧ slot c1 gl.GL_FRAMEBUFFER_EXT = FrameBuffer.id self
         ∧ (∀ target, target ≠ gl.GL_FRAMEBUFFER_EXT →
              slot c1 target = slot c target)
         ∧ FrameBuffer.activate self c1 = (Ok tt, c2)
         ∧ bound c2 = bound c1).
Proof.
  split; [|split]; intros self c; eexists _, _;
    (split; [reflexivity|]); unfold slot; cbn;
    (split; [by rewrite lookup_insert_eq|]);
    (split; [intros target Hne; by rewrite lookup_insert_ne|]);
    (split; [reflexivity|]); cbn; apply insert_insert_eq.
Qed.

(** ** The classes *)


(** ** Textures and buffers side by side *)

(** X19.  Setting the data of a texture leaves 0 in the texture slot
    whatever texture was bound before, and touches nothing else: the
    sampling parameters of every other texture, the other bind slots,
    the live names and the device copies of the buffers are as
    before. *)
Theorem Texture_data_setter_frame
  (self : Texture.t) (value : list Z) (c : context) :
  ∃ self' c',
    Texture.data_setter self value c = (Ok self', c')
    ∧ slot c' gl.GL_TEXTURE_2D = 0
    ∧ (∀ target, target ≠ gl.GL_TEXTURE_2D → slot c' target = slot c target)
    ∧ (∀ tex pname, tex ≠ Texture.id self →
         sampling c' tex pname = sampling c tex pname)
    ∧ buffers c' = buffers c
    ∧ textures c' = textures c
    ∧ framebuffers c' = framebuffers c
    ∧ buffer_store c' = buffer_store c
    ∧ framebuffer_status c' = framebuffer_status c.
Proof.
  destruct self as [name w h d], c as [bd bufs texs fbs store tp st cs].
  run. eexists _, _. split; [reflexivity|]. cbv beta iota.
  split; [by lookups|]. split.
  { intros target Hne. by rewrite !lookup_insert_ne. }
  split; [|done].
  intros tex pname Hne. rewrite !lookup_insert_eq. cbv [default from_option id].
  rewrite !lookup_insert_ne; [done|congruence..].
Qed.

(** ** Initial data *)

Lemma init_unknown_buffer_type (dtype buffer_type : string)
  (data : option (list pynum)) (c : context) :
  _buffer_type_map !! buffer_type = None →
  VertexBuffer.__init__ dtype data buffer_type c
  = (Raise (KeyError buffer_type), c).
Proof.
  intros Hbt. unfold VertexBuffer.__init__.
  apply bind_raise. by apply getitem_None.
Qed.

Lemma init_unknown_dtype (dtype buffer_type : string)
  (data : option (list pynum)) (type : Z) (c : context) :
  _buffer_type_map !! buffer_type = Some type →
  _dtype_map !! dtype = None →
  VertexBuffer.__init__ dtype data buffer_type c = (Raise (KeyError dtype), c).
Proof.
  intros Hbt Hdt. unfold VertexBuffer.__init__.
  rewrite (bind_ok _ _ c c type) by by apply getitem_Some.
  apply bind_raise. by apply getitem_None.
Qed.

(** X20.  Passing initial data to the constructor is the same as
    constructing without data and then assigning [data]: the two
    computations agree on every context, in their result and in the
    context they leave, errors included. *)
Theorem init_with_data_is_init_then_set
  (dtype buffer_type : string) (value : list pynum) (c : context) :
  VertexBuffer.__init__ dtype (Some value) buffer_type c
  = (self ← VertexBuffer.__init__ dtype None buffer_type;
     VertexBuffer.data_setter self value) c.
Proof.
  destruct (_buffer_type_map !! buffer_type) as [type|] eqn:Hbt.
  - destruct (_dtype_map !! dtype) as [[t const]|] eqn:Hdt.
    + pose proof (init_valid dtype buffer_type None type t const c Hbt Hdt)
        as Hnone.
      rewrite (init_valid dtype buffer_type (Some value) type t const c Hbt Hdt).
      cbv zeta in *. symmetry.
      exact (bind_ok _ (λ self, VertexBuffer.data_setter self value) c _ _
               Hnone).
    + rewrite (init_unknown_dtype dtype buffer_type _ type c Hbt Hdt).
      symmetry. apply bind_raise.
      exact (init_unknown_dtype dtype buffer_type None type c Hbt Hdt).
  - rewrite (init_unknown_buffer_type dtype buffer_type _ c Hbt).
    symmetry. apply bind_raise.
    exact (init_unknown_buffer_type dtype buffer_type None c Hbt).
Qed.

(** X21.  The constructor looks the kind up before the element type:
    an unknown [buffer_type] raises [KeyError] carrying it, whether or
    not [dtype] is known, and an unknown [dtype] is reported only when
    [buffer_type] is a key.  Either way nothing was issued and the
    initial data was not looked at. *)
Theorem init_KeyError_names_first_missing_key
  (dtype buffer_type : string) (data : option (list pynum)) (c : context) :
  (_buffer_type_map !! buffer_type = None →
   VertexBuffer.__init__ dtype data buffer_type c
   = (Raise (KeyError buffer_type), c))
  ∧ (is_Some (_buffer_type_map !! buffer_type) →
     _dtype_map !! dtype = None →
     VertexBuffer.__init__ dtype data buffer_type c
     = (Raise (KeyError dtype), c)).
Proof.
  split.
  - apply init_unknown_buffer_type.
  - intros [type Hbt]. by apply (init_unknown_dtype dtype buffer_type data type).
Qed.

Lemma init_KeyError_names_first_missing_key_witness :
  VertexBuffer.__init__ "int" (Some [one_and_a_half]) "index" sample_context
  = (Raise (KeyError "index"), sample_context)
  ∧ VertexBuffer.__init__ "int" (Some [one_and_a_half]) "elem" sample_context
    = (Raise (KeyError "int"), sample_context).
Proof.
  split.
  - apply (proj1 (init_KeyError_names_first_missing_key "int" "index"
                    (Some [one_and_a_half]) sample_context)).
    reflexivity.
  - apply (proj2 (init_KeyError_names_first_missing_key "int" "elem"
                    (Some [one_and_a_half]) sample_context)).
    + by eexists.
    + reflexivity.
Defined.
